(** * Minimal Notes: a shallow embedding of the notes view-controller

    The development follows [notes_frontend/src/App.js] (the four store
    operations [loadNotes], [createNote], [updateNote], [deleteNote] and the
    five handlers of the [App] component) and the module that builds the
    store client from the process environment.

    JavaScript values are a small sum type, JavaScript objects are finite
    maps from property names to values, and the asynchronous handlers are
    programs of a state-and-exception monad that records every state setter,
    every request sent to the store and every alert in a log. *)

From Stdlib Require Import String Ascii ZArith List Lia Bool.
From stdpp Require Import base option list gmap strings fin_maps.
Import ListNotations.

Local Open Scope Z_scope.

(** ** JavaScript values *)

Module JS.

(** The primitive values the application handles: ids are numbers or
    strings, texts and timestamps are strings, [null] is the empty selection
    and [undefined] the value of an absent property.  Numbers are integers
    (ids); a character of a string stands for one code unit below 256. *)
Inductive value : Type :=
| VUndef
| VNull
| VBool (b : bool)
| VNum (n : Z)
| VStr (s : string).

#[export] Instance value_eq_dec : EqDecision value.
Proof. solve_decision. Defined.

(** [ToBoolean]: what [if (v)], [!v], [v && w] and [v || w] test. *)
Definition truthy (v : value) : bool :=
  match v with
  | VUndef | VNull => false
  | VBool b => b
  | VNum n => negb (n =? 0)
  | VStr s => negb (String.eqb s EmptyString)
  end.

(** [v === w] *)
Definition strict_eq (v w : value) : bool :=
  match v, w with
  | VUndef, VUndef => true
  | VNull, VNull => true
  | VBool a, VBool b => Bool.eqb a b
  | VNum a, VNum b => a =? b
  | VStr a, VStr b => String.eqb a b
  | _, _ => false
  end.

(** [v || w] *)
Definition or_else (v w : value) : value := if truthy v then v else w.

(** Objects: finite maps from property names to values. *)
Abbreviation obj := (gmap string value).

(** [o.k], [undefined] when the property is absent. *)
Definition field (k : string) (o : obj) : value := default VUndef (o !! k).

(** [{ ...o }]: a fresh object with the properties of [o]. *)
Definition spread (o : obj) : obj := o.

(** *** [String.prototype.trim] *)

(** White space and line terminators among the code units below 256:
    TAB, LF, VT, FF, CR, SP and NBSP. *)
Definition is_space (c : ascii) : bool :=
  let n := nat_of_ascii c in
  ((n =? 9) || (n =? 10) || (n =? 11) || (n =? 12) || (n =? 13)
   || (n =? 32) || (n =? 160))%nat.

Fixpoint trim_start (s : string) : string :=
  match s with
  | EmptyString => EmptyString
  | String c s' => if is_space c then trim_start s' else s
  end.

Fixpoint trim_end (s : string) : string :=
  match s with
  | EmptyString => EmptyString
  | String c s' =>
      match trim_end s' with
      | EmptyString => if is_space c then EmptyString else String c EmptyString
      | r => String c r
      end
  end.

Definition trim (s : string) : string := trim_end (trim_start s).

(** Every character of [s] is white space. *)
Fixpoint all_space (s : string) : bool :=
  match s with
  | EmptyString => true
  | String c s' => is_space c && all_space s'
  end.

Definition first_char (s : string) : option ascii :=
  match s with
  | EmptyString => None
  | String c _ => Some c
  end.

Fixpoint last_char (s : string) : option ascii :=
  match s with
  | EmptyString => None
  | String c EmptyString => Some c
  | String _ s' => last_char s'
  end.

End JS.

Import JS.

(** ** The remote store, as the client sees it *)

Module Store.

(** The four request shapes the application builds with the query builder
    of the store client. *)
Inductive query : Type :=
| QSelect (table : string) (order_by : string) (ascending : bool)
    (* .from(t).select('*').order(c, { ascending }) *)
| QInsert (table : string) (rows : list obj)
    (* .from(t).insert(rows).select() *)
| QUpdate (table : string) (patch : obj) (col : string) (v : value)
    (* .from(t).update(patch).eq(c, v).select() *)
| QDelete (table : string) (col : string) (v : value).
    (* .from(t).delete().eq(c, v) *)

(** The resolved value [{ data, error }] of an awaited request: [data] is
    [null] or an array of rows, [error] is [null] or an error with a
    message. *)
Record response : Type := Response {
  data : option (list obj);
  error : option string
}.

(** [data && data[0]] *)
Definition first_row (d : option (list obj)) : option obj :=
  match d with
  | Some (r :: _) => Some r
  | _ => None
  end.

(** [data || []] *)
Definition rows_or_empty (d : option (list obj)) : list obj :=
  match d with
  | Some l => l
  | None => []
  end.

(** What the store does with an update request (the store itself is a
    remote service, not part of the repository): the rows whose column
    [col] equals [v] take the columns of [patch], every other column and
    every other row is kept. *)
Definition apply_update (patch : obj) (col : string) (v : value)
    (rows : list obj) : list obj :=
  map (fun r => if strict_eq (field col r) v then patch ∪ r else r) rows.

(** Timestamps in ISO-8601 form compare as strings. *)
Definition ts_geb (a b : value) : bool :=
  match a, b with
  | VStr x, VStr y => negb (String.ltb x y)
  | _, _ => false
  end.

(** What a store that honours [order(c, { ascending: false })] returns:
    every row is followed only by rows whose column [c] is not later. *)
Fixpoint descending_by (c : string) (rows : list obj) : bool :=
  match rows with
  | [] => true
  | r :: rest =>
      forallb (fun r' => ts_geb (field c r) (field c r')) rest
      && descending_by c rest
  end.

End Store.

Import Store.

(** ** View state and the handler monad *)

(** The five [useState] cells of [App]. *)
Record State : Type := MkState {
  notes : list obj;
  selectedId : value;
  editingNote : option obj;
  loading : bool;
  saving : bool
}.

(** The state of the first render. *)
Definition initial_state : State :=
  {| notes := []; selectedId := VNull; editingNote := None;
     loading := true; saving := false |}.

(** What a handler does that an observer can see, in order. *)
Inductive event : Type :=
| ESetNotes (l : list obj)
| ESetSelectedId (v : value)
| ESetEditingNote (o : option obj)
| ESetLoading (b : bool)
| ESetSaving (b : bool)
| EQuery (q : query)
| EAlert (msg : string).

(** The environment of one handler run: the wall clock, read by
    [new Date().toISOString()], and the answers of the store. *)
Record Env : Type := MkEnv {
  clock : nat -> string;
  server : query -> response
}.

(** What a run has reached: the view state, the number of clock readings
    made, and the log, most recent event first. *)
Record World : Type := MkWorld {
  ui : State;
  ticks : nat;
  log : list event
}.

Inductive result (A : Type) : Type :=
| Ok (a : A)
| Throw (e : string).
Arguments Ok {A} a.
Arguments Throw {A} e.

Definition M (A : Type) : Type := Env -> World -> result A * World.

#[export] Instance M_ret : MRet M := fun A a _ w => (Ok a, w).

#[export] Instance M_bind : MBind M := fun A B k m env w =>
  match m env w with
  | (Ok a, w') => k a env w'
  | (Throw e, w') => (Throw e, w')
  end.

Definition throw {A : Type} (e : string) : M A := fun _ w => (Throw e, w).

Definition emit (e : event) : M unit := fun _ w =>
  (Ok tt, {| ui := ui w; ticks := ticks w; log := e :: log w |}).

Definition modify (f : State -> State) : M unit := fun _ w =>
  (Ok tt, {| ui := f (ui w); ticks := ticks w; log := log w |}).

Definition current : M State := fun _ w => (Ok (ui w), w).

Definition with_notes (l : list obj) (s : State) : State :=
  {| notes := l; selectedId := selectedId s; editingNote := editingNote s;
     loading := loading s; saving := saving s |}.

Definition with_selectedId (v : value) (s : State) : State :=
  {| notes := notes s; selectedId := v; editingNote := editingNote s;
     loading := loading s; saving := saving s |}.

Definition with_editingNote (o : option obj) (s : State) : State :=
  {| notes := notes s; selectedId := selectedId s; editingNote := o;
     loading := loading s; saving := saving s |}.

Definition with_loading (b : bool) (s : State) : State :=
  {| notes := notes s; selectedId := selectedId s;
     editingNote := editingNote s; loading := b; saving := saving s |}.

Definition with_saving (b : bool) (s : State) : State :=
  {| notes := notes s; selectedId := selectedId s;
     editingNote := editingNote s; loading := loading s; saving := b |}.

(** The state setters.  [setNotes l] is the call with a value,
    [updateNotes f] the call with an updater function, which React applies
    to the state of the moment. *)
Definition setNotes (l : list obj) : M unit :=
  modify (with_notes l) ;; emit (ESetNotes l).

Definition updateNotes (f : list obj -> list obj) : M unit :=
  s ← current; setNotes (f (notes s)).

Definition setSelectedId (v : value) : M unit :=
  modify (with_selectedId v) ;; emit (ESetSelectedId v).

Definition setEditingNote (o : option obj) : M unit :=
  modify (with_editingNote o) ;; emit (ESetEditingNote o).

Definition setLoading (b : bool) : M unit :=
  modify (with_loading b) ;; emit (ESetLoading b).

Definition setSaving (b : bool) : M unit :=
  modify (with_saving b) ;; emit (ESetSaving b).

(** [new Date().toISOString()] *)
Definition isoNow : M string := fun env w =>
  (Ok (clock env (ticks w)),
   {| ui := ui w; ticks := S (ticks w); log := log w |}).

(** [await q]: the request leaves, the answer of the store comes back. *)
Definition answer (q : query) : M response := fun env w =>
  (Ok (server env q), w).

Definition await (q : query) : M response := emit (EQuery q) ;; answer q.

Definition alert (msg : string) : M unit := emit (EAlert msg).

(** [v.trim()]: a [TypeError] unless [v] is a string. *)
Definition js_trim (v : value) : M value :=
  match v with
  | VStr s => mret (VStr (trim s))
  | _ => throw "TypeError"
  end.

(** ** The store operations of [App.js] *)

(** [loadNotes(setNotes, setLoading)] *)
Definition loadNotes (setNotes : list obj -> M unit)
    (setLoading : bool -> M unit) : M unit :=
  setLoading true ;;
  r ← await (QSelect "notes" "updated_at" false);
  match error r with
  | Some _ => setNotes []
  | None => setNotes (rows_or_empty (data r))
  end ;;
  setLoading false.

(** The row [{ title: '', content: '', created_at: now, updated_at: now }]. *)
Definition blank_note (now : string) : obj :=
  <["updated_at" := VStr now]>
    (<["created_at" := VStr now]>
       (<["content" := VStr EmptyString]>
          (<["title" := VStr EmptyString]> ∅))).

(** [createNote()]: the inserted row, or nothing. *)
Definition createNote : M (option obj) :=
  now ← isoNow;
  r ← await (QInsert "notes" [blank_note now]);
  match error r with
  | Some msg => alert ("Failed to create note: " +:+ msg) ;; mret None
  | None => mret (first_row (data r))
  end.

(** The object [{ title: note.title, content: note.content,
    updated_at: now }]. *)
Definition update_patch (note : obj) (now : string) : obj :=
  <["updated_at" := VStr now]>
    (<["content" := field "content" note]>
       (<["title" := field "title" note]> ∅)).

(** [updateNote(note)]: the updated row, or nothing. *)
Definition updateNote (note : obj) : M (option obj) :=
  now ← isoNow;
  r ← await (QUpdate "notes" (update_patch note now) "id" (field "id" note));
  match error r with
  | Some msg => alert ("Failed to update note: " +:+ msg) ;; mret None
  | None => mret (first_row (data r))
  end.

(** [deleteNote(id)] *)
Definition deleteNote (id : value) : M bool :=
  r ← await (QDelete "notes" "id" id);
  match error r with
  | Some msg => alert ("Failed to delete note: " +:+ msg) ;; mret false
  | None => mret true
  end.

(** ** The handlers of [App]

    A handler is a closure over the state of the render that created it:
    [snap] is that state.  Setters called with an updater function work on
    the state of the moment instead. *)

(** [{ ...o }] where [o] may be [null]. *)
Definition spread_nullable (o : option obj) : obj :=
  match o with
  | Some o' => spread o'
  | None => ∅
  end.

Definition handleSelect (snap : State) (id : value) : M unit :=
  setSelectedId id ;;
  let note := find (fun n => strict_eq (field "id" n) id) (notes snap) in
  setEditingNote (match note with
                  | Some n => Some (spread n)
                  | None => None
                  end).

Definition handleCreate : M unit :=
  setSaving true ;;
  note ← createNote;
  setSaving false ;;
  match note with
  | Some n =>
      updateNotes (fun prev => n :: prev) ;;
      setSelectedId (field "id" n) ;;
      setEditingNote (Some (spread n))
  | None => mret tt
  end.

(** [handleChange(e)] with [name = e.target.name], [text = e.target.value]. *)
Definition handleChange (snap : State) (name : string) (text : string)
    : M unit :=
  now ← isoNow;
  setEditingNote
    (Some (<["updated_at" := VStr now]>
             (<[name := VStr text]> (spread_nullable (editingNote snap))))).

Definition handleSave (snap : State) : M unit :=
  match editingNote snap with
  | None => mret tt
  | Some e =>
      setSaving true ;;
      t ← js_trim (field "title" e);
      c ← js_trim (field "content" e);
      let trimmed := <["content" := c]> (<["title" := t]> (spread e)) in
      updated ← updateNote trimmed;
      setSaving false ;;
      match updated with
      | Some u =>
          updateNotes
            (map (fun n =>
                    if strict_eq (field "id" n) (field "id" trimmed)
                    then u else n)) ;;
          setEditingNote (Some u)
      | None => mret tt
      end
  end.

Definition handleDelete (snap : State) : M unit :=
  if negb (truthy (selectedId snap)) then mret tt
  else
    setSaving true ;;
    ok ← deleteNote (selectedId snap);
    setSaving false ;;
    if ok : bool then
      updateNotes
        (List.filter
           (fun n => negb (strict_eq (field "id" n) (selectedId snap)))) ;;
      setEditingNote None ;;
      setSelectedId VNull
    else mret tt.

(** What the editor pane shows after [Last updated:], if anything: the pane
    is the form only when [editingNote && selectedId], and the label is
    rendered only when [editingNote.updated] is truthy. *)
Definition lastUpdatedLabel (st : State) : option value :=
  match editingNote st with
  | Some e =>
      if truthy (selectedId st) then
        if truthy (field "updated" e) then Some (field "updated" e) else None
      else None
  | None => None
  end.

(** ** User actions *)

(** The two controls whose [onChange] is [handleChange], with their [name]
    attributes. *)
Inductive input : Type := TitleInput | ContentInput.

Definition input_name (i : input) : string :=
  match i with
  | TitleInput => "title"
  | ContentInput => "content"
  end.

Inductive action : Type :=
| Mount                                   (* the effect of the first render *)
| Select (id : value)                     (* click on a list item *)
| NewNote                                 (* click on + New Note *)
| Change (i : input) (text : string)      (* typing in a field *)
| Save                                    (* submitting the form *)
| Delete.                                 (* click on Delete *)

Definition handler (a : action) (snap : State) : M unit :=
  match a with
  | Mount => loadNotes setNotes setLoading
  | Select id => handleSelect snap id
  | NewNote => handleCreate
  | Change i text => handleChange snap (input_name i) text
  | Save => handleSave snap
  | Delete => handleDelete snap
  end.

(** Running a program from a state, with an empty log. *)
Definition run {A : Type} (m : M A) (env : Env) (st : State)
    : result A * World :=
  m env {| ui := st; ticks := 0; log := [] |}.

(** An action runs the handler of the current render to its end. *)
Definition dispatch (a : action) (env : Env) (st : State)
    : result unit * World :=
  run (handler a st) env st.

Definition step (a : action) (env : Env) (st : State) : State :=
  ui (snd (dispatch a env st)).

(** The events of an action, in the order they happened. *)
Definition trace (a : action) (env : Env) (st : State) : list event :=
  rev (log (snd (dispatch a env st))).

Fixpoint steps (tr : list (action * Env)) (st : State) : State :=
  match tr with
  | [] => st
  | (a, env) :: tr' => steps tr' (step a env st)
  end.

(** ** The store client module *)

Module Client.

(** The client that [createClient(url, key)] returns. *)
Record client : Type := CreateClient {
  client_url : value;
  client_key : value
}.

(** The outcome of evaluating the module: its own check throws, the
    constructor of the store library throws, or the client is exported. *)
Inductive outcome : Type :=
| Thrown (msg : string)
| Rejected (msg : string)
| Exported (c : client).

(** [createClient] is the constructor of the store library, which is not
    part of the repository: it examines its two arguments and throws when
    it refuses them.  [check url key] is the message of that error, if
    any; the module is modelled for every such [check]. *)
Definition createClient (check : value -> value -> option string)
    (url key : value) : outcome :=
  match check url key with
  | Some msg => Rejected msg
  | None => Exported (CreateClient url key)
  end.

(** [process.env.K] *)
Definition getenv (penv : gmap string string) (k : string) : value :=
  match penv !! k with
  | Some s => VStr s
  | None => VUndef
  end.

Definition supabaseUrl (penv : gmap string string) : value :=
  or_else (getenv penv "REACT_APP_SUPABASE_URL") (getenv penv "SUPABASE_URL").

Definition supabaseAnonKey (penv : gmap string string) : value :=
  or_else (getenv penv "REACT_APP_SUPABASE_ANON_KEY")
          (getenv penv "SUPABASE_ANON_KEY").

Definition supabase (check : value -> value -> option string)
    (penv : gmap string string) : outcome :=
  if negb (truthy (supabaseUrl penv)) || negb (truthy (supabaseAnonKey penv))
  then Thrown "Supabase credentials are not set. Please check SUPABASE_URL and SUPABASE_ANON_KEY env variables."
  else createClient check (supabaseUrl penv) (supabaseAnonKey penv).

(** [App.js] imports the client: the application starts, in its initial
    state, only if the module exported it. *)
Definition start (check : value -> value -> option string)
    (penv : gmap string string) : option State :=
  match supabase check penv with
  | Exported _ => Some initial_state
  | _ => None
  end.

(** A configuration value that is set and not empty. *)
Definition present (penv : gmap string string) (k : string) : Prop :=
  exists s, penv !! k = Some s /\ s <> EmptyString.

(** A constructor that accepts every URL and key, and one that, like the
    store library, refuses a URL that does not begin with [http://] or
    [https://] (in either case of the letters). *)
Definition accept_all (url key : value) : option string := None.

Definition lower (c : ascii) : ascii :=
  let n := nat_of_ascii c in
  if ((65 <=? n) && (n <=? 90))%nat then ascii_of_nat (n + 32) else c.

Fixpoint lower_case (s : string) : string :=
  match s with
  | EmptyString => EmptyString
  | String c s' => String (lower c) (lower_case s')
  end.

Definition has_http_scheme (s : string) : bool :=
  String.prefix "http://" (lower_case s)
  || String.prefix "https://" (lower_case s).

Definition http_only (url key : value) : option string :=
  match url with
  | VStr u =>
      if has_http_scheme u then None
      else Some "Invalid supabaseUrl: Must be a valid HTTP or HTTPS URL."
  | _ => Some "supabaseUrl is required."
  end.

End Client.

(** ** What [App] renders *)

Module View.

(** [s.split('\n')[0]]: the characters before the first line feed. *)
Definition is_lf (c : ascii) : bool := (nat_of_ascii c =? 10)%nat.

Fixpoint first_line (s : string) : string :=
  match s with
  | EmptyString => EmptyString
  | String c s' => if is_lf c then EmptyString else String c (first_line s')
  end.

(** [s.slice(0, n)]: the first [n] characters, or all of [s]. *)
Fixpoint slice_to (n : nat) (s : string) : string :=
  match n, s with
  | O, _ => EmptyString
  | S _, EmptyString => EmptyString
  | S n', String c s' => String c (slice_to n' s')
  end.

Fixpoint contains_lf (s : string) : bool :=
  match s with
  | EmptyString => false
  | String c s' => is_lf c || contains_lf s'
  end.

(** The second line of a list item:
    [note.content ? note.content.split('\n')[0].slice(0, 33)
                  : <i>[No content]</i>].
    A truthy content that is not a string has no [split]. *)
Inductive preview : Type :=
| PreviewText (s : string)
| NoContent.

Definition contentPreview (content : value) : result preview :=
  if truthy content then
    match content with
    | VStr s => Ok (PreviewText (slice_to 33 (first_line s)))
    | _ => Throw "TypeError"
    end
  else Ok NoContent.

(** The first line of a list item:
    [note.title ? note.title : <span>Untitled</span>]. *)
Inductive title_cell : Type :=
| TitleText (v : value)
| Untitled.

Definition titleCell (title : value) : title_cell :=
  if truthy title then TitleText title else Untitled.

(** [selectedId === note.id]: the item is drawn as the selected one. *)
Definition isSelected (sel : value) (n : obj) : bool :=
  strict_eq sel (field "id" n).

(** One [<li>] of the list. *)
Record item : Type := MkItem {
  item_key : value;
  item_selected : bool;
  item_title : title_cell;
  item_preview : result preview
}.

Definition listItem (sel : value) (n : obj) : item :=
  {| item_key := field "id" n;
     item_selected := isSelected sel n;
     item_title := titleCell (field "title" n);
     item_preview := contentPreview (field "content" n) |}.

(** [notes.map(note => <li ...>)] *)
Definition listItems (st : State) : list item :=
  map (listItem (selectedId st)) (notes st).

(** The editor pane: the form with the title and the content of the buffer
    when [editingNote && selectedId], the prompt to select a note
    otherwise. *)
Inductive pane : Type :=
| Form (title content : value)
| Prompt.

Definition editorPane (st : State) : pane :=
  match editingNote st with
  | Some e =>
      if truthy (selectedId st)
      then Form (field "title" e) (field "content" e)
      else Prompt
  | None => Prompt
  end.

(** Which actions the rendered page offers.  A list item calls
    [handleSelect] with the id of its note; the fields, the submit button
    and the delete button exist only inside the form; the button for a new
    note is always there; the effect that loads the list is not a user
    action.  (The browser submits the form only when the required title is
    not empty: every submit is allowed here.) *)
Definition enabled (a : action) (st : State) : bool :=
  match a with
  | Mount => false
  | Select id => existsb (fun n => strict_eq (field "id" n) id) (notes st)
  | NewNote => true
  | Change _ _ | Save | Delete =>
      match editorPane st with
      | Form _ _ => true
      | Prompt => false
      end
  end.

End View.

Import View.

(** ** Handlers and answers in any order

    Nothing on the page waits for a request: while a handler is suspended
    at its [await] the user can start other handlers, and the answers come
    back in any order.  Each asynchronous handler is therefore also given
    in two halves: what it does up to its [await], and what it does with
    the answer.  The second half works on the state of the moment the
    answer arrives, with the values the closure captured at the click. *)

Module Async.

(** A handler after its first half: it has returned, or it waits for the
    answer to [q] with [k] as the rest of its body. *)
Inductive suspended : Type :=
| Finished
| Awaiting (q : query) (k : response -> M unit).

(** The three writing operations once the store has answered. *)
Definition createNote_answered (r : response) : M (option obj) :=
  match error r with
  | Some msg => alert ("Failed to create note: " +:+ msg) ;; mret None
  | None => mret (first_row (data r))
  end.

Definition updateNote_answered (r : response) : M (option obj) :=
  match error r with
  | Some msg => alert ("Failed to update note: " +:+ msg) ;; mret None
  | None => mret (first_row (data r))
  end.

Definition deleteNote_answered (r : response) : M bool :=
  match error r with
  | Some msg => alert ("Failed to delete note: " +:+ msg) ;; mret false
  | None => mret true
  end.

Definition loadNotes_begin (setNotes : list obj -> M unit)
    (setLoading : bool -> M unit) : M suspended :=
  setLoading true ;;
  let q := QSelect "notes" "updated_at" false in
  emit (EQuery q) ;;
  mret (Awaiting q (fun r =>
    match error r with
    | Some _ => setNotes []
    | None => setNotes (rows_or_empty (data r))
    end ;;
    setLoading false)).

Definition handleCreate_begin : M suspended :=
  setSaving true ;;
  now ← isoNow;
  let q := QInsert "notes" [blank_note now] in
  emit (EQuery q) ;;
  mret (Awaiting q (fun r =>
    note ← createNote_answered r;
    setSaving false ;;
    match note with
    | Some n =>
        updateNotes (fun prev => n :: prev) ;;
        setSelectedId (field "id" n) ;;
        setEditingNote (Some (spread n))
    | None => mret tt
    end)).

Definition handleSave_begin (snap : State) : M suspended :=
  match editingNote snap with
  | None => mret Finished
  | Some e =>
      setSaving true ;;
      t ← js_trim (field "title" e);
      c ← js_trim (field "content" e);
      let trimmed := <["content" := c]> (<["title" := t]> (spread e)) in
      now ← isoNow;
      let q := QUpdate "notes" (update_patch trimmed now)
                       "id" (field "id" trimmed) in
      emit (EQuery q) ;;
      mret (Awaiting q (fun r =>
        updated ← updateNote_answered r;
        setSaving false ;;
        match updated with
        | Some u =>
            updateNotes
              (map (fun n =>
                      if strict_eq (field "id" n) (field "id" trimmed)
                      then u else n)) ;;
            setEditingNote (Some u)
        | None => mret tt
        end))
  end.

Definition handleDelete_begin (snap : State) : M suspended :=
  if negb (truthy (selectedId snap)) then mret Finished
  else
    setSaving true ;;
    let q := QDelete "notes" "id" (selectedId snap) in
    emit (EQuery q) ;;
    mret (Awaiting q (fun r =>
      ok ← deleteNote_answered r;
      setSaving false ;;
      if ok : bool then
        updateNotes
          (List.filter
             (fun n => negb (strict_eq (field "id" n) (selectedId snap)))) ;;
        setEditingNote None ;;
        setSelectedId VNull
      else mret tt)).

(** The first half of the handler of an action. *)
Definition begin (a : action) (snap : State) : M suspended :=
  match a with
  | Mount => loadNotes_begin setNotes setLoading
  | Select id => handleSelect snap id ;; mret Finished
  | NewNote => handleCreate_begin
  | Change i text => handleChange snap (input_name i) text ;; mret Finished
  | Save => handleSave_begin snap
  | Delete => handleDelete_begin snap
  end.

(** A handler whose answer comes back before anything else happens. *)
Definition answered_at_once (s : M suspended) : M unit :=
  x ← s;
  match x with
  | Finished => mret tt
  | Awaiting q k => r ← answer q; k r
  end.

(** The page between two events: the view state and the handlers that
    wait for an answer, oldest first. *)
Record Page : Type := MkPage {
  view : State;
  waiting : list (query * (response -> M unit))
}.

(** What happens to the page: the user acts, or the store answers the
    request of the [k]-th waiting handler.  The environment gives the
    clock, and the answer of the store at that moment. *)
Inductive occurrence : Type :=
| Click (a : action) (env : Env)
| Answer (k : nat) (env : Env).

Definition env_of (o : occurrence) : Env :=
  match o with
  | Click _ env => env
  | Answer _ env => env
  end.

(** A click runs the first half of the handler of the current render. *)
Definition click (a : action) (env : Env) (p : Page) : result unit * Page :=
  match run (begin a (view p)) env (view p) with
  | (Ok Finished, w) =>
      (Ok tt, {| view := ui w; waiting := waiting p |})
  | (Ok (Awaiting q k), w) =>
      (Ok tt, {| view := ui w; waiting := waiting p ++ [(q, k)] |})
  | (Throw e, w) =>
      (Throw e, {| view := ui w; waiting := waiting p |})
  end.

(** An answer runs the second half of the handler that waited for it. *)
Definition answer_to (k : nat) (env : Env) (p : Page) : Page :=
  match nth_error (waiting p) k with
  | Some (q, rest) =>
      {| view := ui (snd (run (rest (server env q)) env (view p)));
         waiting := firstn k (waiting p) ++ skipn (S k) (waiting p) |}
  | None => p
  end.

Definition occur (o : occurrence) (p : Page) : Page :=
  match o with
  | Click a env => snd (click a env p)
  | Answer k env => answer_to k env p
  end.

Fixpoint occurs (os : list occurrence) (p : Page) : Page :=
  match os with
  | [] => p
  | o :: os' => occurs os' (occur o p)
  end.

(** The page after the first render, whose effect has begun to load the
    list. *)
Definition opened (env : Env) : Page :=
  snd (click Mount env {| view := initial_state; waiting := [] |}).

(** A run in which every click is on something the page shows at that
    moment and every answer is to a handler that waits. *)
Fixpoint offered (os : list occurrence) (p : Page) : Prop :=
  match os with
  | [] => True
  | o :: os' =>
      match o with
      | Click a _ => enabled a (view p) = true
      | Answer k _ => (k < length (waiting p))%nat
      end /\ offered os' (occur o p)
  end.

End Async.

Import Async.

(** ** Vocabulary of the statements *)

(** [r] is [s] without its leading and trailing white space. *)
Definition trimmed_of (s r : string) : Prop :=
  exists pre post,
    s = pre +:+ r +:+ post /\
    all_space pre = true /\ all_space post = true /\
    (forall c, first_char r = Some c -> is_space c = false) /\
    (forall c, last_char r = Some c -> is_space c = false).

(** The requests recorded in a log, in order. *)
Fixpoint queries (l : list event) : list query :=
  match l with
  | [] => []
  | EQuery q :: l' => q :: queries l'
  | _ :: l' => queries l'
  end.

(** The alerts recorded in a log, in order. *)
Fixpoint alerts (l : list event) : list string :=
  match l with
  | [] => []
  | EAlert m :: l' => m :: alerts l'
  | _ :: l' => alerts l'
  end.

(** The actions that write to the store. *)
Definition is_write (a : action) : bool :=
  match a with
  | NewNote | Save | Delete => true
  | _ => false
  end.

(** No two notes of the list have the same id. *)
Definition ids_unique (l : list obj) : Prop := NoDup (map (field "id") l).

(** A store whose rows have no column named [updated]: the table has the
    columns [id], [title], [content], [created_at] and [updated_at]. *)
Definition no_updated_column (env : Env) : Prop :=
  forall q r, In r (rows_or_empty (data (server env q))) ->
              r !! "updated" = None.

(** No note of the list and no edit buffer has a property [updated]. *)
Definition updated_unset (st : State) : Prop :=
  Forall (fun n : obj => n !! "updated" = None) (notes st) /\
  (forall e : obj, editingNote st = Some e -> e !! "updated" = None).

(** The request of each action, as a function of the state and of the
    clock. *)
Definition list_query : query := QSelect "notes" "updated_at" false.

Definition create_query (env : Env) : query :=
  QInsert "notes" [blank_note (clock env 0)].

Definition delete_query (st : State) : query :=
  QDelete "notes" "id" (selectedId st).

(** The object sent by [handleSave] for a buffer [e] whose title and content
    are the strings [t] and [c]. *)
Definition trimmed_buffer (e : obj) (t c : string) : obj :=
  <["content" := VStr (trim c)]> (<["title" := VStr (trim t)]> e).

Definition save_query (env : Env) (e : obj) (t c : string) : query :=
  QUpdate "notes" (update_patch (trimmed_buffer e t c) (clock env 0))
          "id" (field "id" (trimmed_buffer e t c)).

(** A run of field changes: each is an input, the text typed and the
    environment of that moment. *)
Definition typing (edits : list (input * string * Env))
    : list (action * Env) :=
  map (fun x => (Change x.1.1 x.1.2, x.2)) edits.

(** [find] by id, as [handleSelect] calls it. *)
Definition find_by_id (id : value) (l : list obj) : option obj :=
  find (fun n => strict_eq (field "id" n) id) l.

(** ** Proof automation *)

(** Unfolds the monad, the setters and the handlers; the three writing
    operations, the store's answers and the fields of the objects stay as
    they are. *)
Ltac exec :=
  cbv [dispatch run handler handleSelect handleCreate handleChange
       handleSave handleDelete loadNotes
       setNotes updateNotes setSelectedId setEditingNote setLoading setSaving
       isoNow await answer alert js_trim throw emit modify current
       mbind mret M_bind M_ret with_notes with_selectedId with_editingNote
       with_loading with_saving ui ticks log notes selectedId editingNote
       loading saving spread spread_nullable negb].

Ltac exec_op :=
  cbv [createNote updateNote deleteNote
       isoNow await answer alert throw emit modify current
       mbind mret M_bind M_ret ui ticks log].

(** A store whose rows have a text in [title] and in [content]. *)
Definition text_columns (env : Env) : Prop :=
  forall q r, In r (rows_or_empty (data (server env q))) ->
              (exists t, field "title" r = VStr t) /\
              (exists c, field "content" r = VStr c).

(** The title and the content of an object are strings. *)
Definition has_texts (o : obj) : Prop :=
  (exists t, field "title" o = VStr t) /\ (exists c, field "content" o = VStr c).

(** Every note of the list and the edit buffer have their texts. *)
Definition texts_everywhere (st : State) : Prop :=
  Forall has_texts (notes st) /\
  (forall e, editingNote st = Some e -> has_texts e).

(** The text a field of the form holds after typing [text] into [i], when
    the fields held [t] and [c]. *)
Definition title_after (i : input) (text t : string) : string :=
  match i with TitleInput => text | ContentInput => t end.

Definition content_after (i : input) (text c : string) : string :=
  match i with TitleInput => c | ContentInput => text end.

(** How the alert of a failed write begins. *)
Definition failure_text (a : action) : string :=
  match a with
  | NewNote => "Failed to create note: "
  | Save => "Failed to update note: "
  | Delete => "Failed to delete note: "
  | _ => EmptyString
  end.

(** The rows of an answer have their texts. *)
Definition texts_in (r : response) : Prop :=
  forall row, In row (rows_or_empty (data r)) -> has_texts row.

(** The second half of a handler keeps the texts of the notes and of the
    buffer when the answer it gets has them. *)
Definition keeps_texts (k : response -> M unit) : Prop :=
  forall r env st,
    texts_in r -> texts_everywhere st ->
    texts_everywhere (ui (snd (run (k r) env st))).

(** Unfolds the two halves of the handlers, the monad and the setters. *)
Ltac exec_async :=
  cbv [click answer_to run begin answered_at_once handler
       loadNotes_begin handleCreate_begin handleSave_begin handleDelete_begin
       createNote_answered updateNote_answered deleteNote_answered
       loadNotes handleSelect handleCreate handleChange handleSave
       handleDelete createNote updateNote deleteNote
       setNotes updateNotes setSelectedId setEditingNote setLoading setSaving
       isoNow await answer alert js_trim throw emit modify current
       mbind mret M_bind M_ret with_notes with_selectedId with_editingNote
       with_loading with_saving ui ticks log notes selectedId editingNote
       loading saving view waiting spread spread_nullable negb fst snd].

(** ** Sample data *)

Module Sample.

Definition note (id : Z) (title content stamp : string) : obj :=
  <["updated_at" := VStr stamp]>
    (<["created_at" := VStr stamp]>
       (<["content" := VStr content]>
          (<["title" := VStr title]> (<["id" := VNum id]> ∅)))).

Definition noteA : obj := note 1 "Groceries" "milk" "2024-05-01T08:00:00.000Z".
Definition noteB : obj := note 2 "Ideas" "proofs" "2024-05-02T09:30:00.000Z".

Definition now : string := "2024-05-03T12:00:00.000Z".

(** What the store answers to the insertion of a blank row, and to the
    update of [noteA]. *)
Definition created : obj := <["id" := VNum 3]> (blank_note now).
Definition saved : obj :=
  <["updated_at" := VStr now]> (<["title" := VStr "Hello"]> noteA).

(** A store that answers every request without an error. *)
Definition working : Env :=
  {| clock := fun _ => now;
     server := fun q =>
       match q with
       | QSelect _ _ _ => Response (Some [noteB; noteA]) None
       | QInsert _ _ => Response (Some [created]) None
       | QUpdate _ _ _ _ => Response (Some [saved]) None
       | QDelete _ _ _ => Response None None
       end |}.

(** A store with an empty table that accepts insertions. *)
Definition fresh : Env :=
  {| clock := fun _ => now;
     server := fun q =>
       match q with
       | QInsert _ _ => Response (Some [created]) None
       | _ => Response (Some []) None
       end |}.

(** A store that answers every request with an error. *)
Definition failing : Env :=
  {| clock := fun _ => now;
     server := fun _ => Response None (Some "Failed to fetch") |}.

(** Two notes loaded, nothing selected. *)
Definition idle : State :=
  {| notes := [noteB; noteA]; selectedId := VNull; editingNote := None;
     loading := false; saving := false |}.

(** [noteA] selected, its title edited and not yet saved. *)
Definition buffer : obj := <["title" := VStr "  Hello "]> noteA.

Definition editing : State :=
  {| notes := [noteB; noteA]; selectedId := VNum 1;
     editingNote := Some buffer; loading := false; saving := false |}.

(** A process environment with both values, and one without the key. *)
Definition configured : gmap string string :=
  <["REACT_APP_SUPABASE_ANON_KEY" := "public-anon-key"]>
    (<["SUPABASE_URL" := "https://notes.example.org"]> ∅).

Definition keyless : gmap string string :=
  <["REACT_APP_SUPABASE_ANON_KEY" := EmptyString]>
    (<["SUPABASE_URL" := "https://notes.example.org"]> ∅).

End Sample.

(** ** More sample data *)

Module Demo.

(** A note with a long first line and a second line. *)
Definition long_content : string :=
  "Buy milk, eggs, bread and a very large pumpkin
for the soup".

(** A store that answers an update with a row of the id asked for, and
    every other request as [Sample.working] does. *)
Definition echo : Env :=
  {| clock := fun _ => Sample.now;
     server := fun q =>
       match q with
       | QUpdate _ _ _ v => Response (Some [<["id" := v]> Sample.saved]) None
       | _ => server Sample.working q
       end |}.

(** A store that answers without an error and without a row. *)
Definition rowless : Env :=
  {| clock := fun _ => Sample.now;
     server := fun _ => Response (Some []) None |}.

(** Both names of the URL set, the key under one name. *)
Definition both_names : gmap string string :=
  <["REACT_APP_SUPABASE_URL" := "https://app.example.org"]>
    (<["SUPABASE_URL" := "https://plain.example.org"]>
       (<["SUPABASE_ANON_KEY" := "plain-key"]> ∅)).

(** Both values set, the URL without a scheme. *)
Definition bare_host : gmap string string :=
  <["SUPABASE_ANON_KEY" := "public-anon-key"]>
    (<["SUPABASE_URL" := "notes.example.org"]> ∅).

End Demo.

(** * Properties *)

(** ** JavaScript values and strings *)

Lemma strict_eq_true (v w : value) : strict_eq v w = true <-> v = w.
Proof.
  destruct v, w; simpl; split; try congruence; try discriminate.
  - intros H. apply Bool.eqb_prop in H. congruence.
  - intros [= ->]. apply Bool.eqb_reflx.
  - intros H. apply Z.eqb_eq in H. congruence.
  - intros [= ->]. apply Z.eqb_refl.
  - intros H. apply String.eqb_eq in H. congruence.
  - intros [= ->]. apply String.eqb_refl.
Qed.

Lemma strict_eq_refl (v : value) : strict_eq v v = true.
Proof. by apply strict_eq_true. Qed.

Lemma strict_eq_false (v w : value) : strict_eq v w = false <-> v <> w.
Proof.
  split.
  - intros H E. apply strict_eq_true in E. congruence.
  - intros H. destruct (strict_eq v w) eqn:E; [|done].
    apply strict_eq_true in E. contradiction.
Qed.

Lemma field_insert (k : string) (v : value) (o : obj) :
  field k (<[k := v]> o) = v.
Proof. unfold field. by rewrite lookup_insert_eq. Qed.

Lemma field_insert_ne (k k' : string) (v : value) (o : obj) :
  k <> k' -> field k' (<[k := v]> o) = field k' o.
Proof. intros H. unfold field. by rewrite lookup_insert_ne. Qed.

Lemma append_cons (a : ascii) (s t : string) :
  String a s +:+ t = String a (s +:+ t).
Proof. reflexivity. Qed.

Lemma append_nil (t : string) : EmptyString +:+ t = t.
Proof. reflexivity. Qed.

Lemma trim_start_spec (s : string) :
  exists pre, s = pre +:+ trim_start s /\ all_space pre = true /\
    forall c, first_char (trim_start s) = Some c -> is_space c = false.
Proof.
  induction s as [|a s IH]; simpl.
  - exists EmptyString. by repeat split.
  - destruct (is_space a) eqn:Ha.
    + destruct IH as (pre & E & Hp & Hc).
      exists (String a pre). simpl. rewrite append_cons, Ha, Hp.
      split; [congruence|done].
    + exists EmptyString. simpl. repeat split. intros c [= <-]. done.
Qed.

Lemma trim_end_spec (s : string) :
  exists post, s = trim_end s +:+ post /\ all_space post = true /\
    forall c, last_char (trim_end s) = Some c -> is_space c = false.
Proof.
  induction s as [|a s IH]; simpl.
  - exists EmptyString. by repeat split.
  - destruct IH as (post & E & Hp & Hc).
    destruct (trim_end s) as [|b r] eqn:Hr.
    + destruct (is_space a) eqn:Ha.
      * exists (String a post). rewrite append_nil in *. simpl.
        rewrite Ha, Hp. split; [congruence|done].
      * exists post. rewrite append_cons, append_nil in *.
        repeat split; [congruence|done|]. intros c [= <-]. done.
    + exists post. rewrite append_cons. split; [congruence|]. split; [done|].
      intros c Hl. apply Hc. exact Hl.
Qed.

Lemma first_char_trim_end (s : string) (c : ascii) :
  first_char (trim_end s) = Some c -> first_char s = Some c.
Proof.
  destruct s as [|a s]; simpl; [done|].
  destruct (trim_end s); [destruct (is_space a)|]; simpl; congruence.
Qed.

Lemma append_assoc (a b c : string) : (a +:+ b) +:+ c = a +:+ (b +:+ c).
Proof.
  induction a as [|x a IH]; [done|]. rewrite !append_cons. congruence.
Qed.

Lemma trim_spec (s : string) : trimmed_of s (trim s).
Proof.
  unfold trimmed_of, trim.
  destruct (trim_start_spec s) as (pre & E1 & Hpre & Hf).
  destruct (trim_end_spec (trim_start s)) as (post & E2 & Hpost & Hl).
  exists pre, post. repeat split; try done.
  - rewrite <- E2. exact E1.
  - intros c Hc. apply Hf. by apply first_char_trim_end.
Qed.

Example trim_both_ends :
  trim ("  Hello world " +:+ String (ascii_of_nat 9) EmptyString)
  = "Hello world".
Proof. reflexivity. Qed.

Example trim_only_spaces : trim "   " = EmptyString.
Proof. reflexivity. Qed.

Example trim_no_break_space :
  trim (String (ascii_of_nat 160) "a b") = "a b".
Proof. reflexivity. Qed.

Example falsy_values :
  map truthy [VUndef; VNull; VBool false; VNum 0; VStr EmptyString;
              VNum 7; VStr "0"]
  = [false; false; false; false; false; true; true].
Proof. reflexivity. Qed.

Example id_one_is_not_the_string_one : strict_eq (VNum 1) (VStr "1") = false.
Proof. reflexivity. Qed.

(** ** Running the operations and the handlers *)


Lemma createNote_run (env : Env) (w : World) :
  createNote env w =
  let q := QInsert "notes" [blank_note (clock env (ticks w))] in
  match error (server env q) with
  | Some msg =>
      (Ok None,
       {| ui := ui w; ticks := S (ticks w);
          log := EAlert ("Failed to create note: " +:+ msg)
                   :: EQuery q :: log w |})
  | None =>
      (Ok (first_row (data (server env q))),
       {| ui := ui w; ticks := S (ticks w); log := EQuery q :: log w |})
  end.
Proof.
  destruct w as [s t l]. exec_op.
  destruct (error (server env _)); reflexivity.
Qed.

Lemma updateNote_run (note : obj) (env : Env) (w : World) :
  updateNote note env w =
  let q := QUpdate "notes" (update_patch note (clock env (ticks w)))
                   "id" (field "id" note) in
  match error (server env q) with
  | Some msg =>
      (Ok None,
       {| ui := ui w; ticks := S (ticks w);
          log := EAlert ("Failed to update note: " +:+ msg)
                   :: EQuery q :: log w |})
  | None =>
      (Ok (first_row (data (server env q))),
       {| ui := ui w; ticks := S (ticks w); log := EQuery q :: log w |})
  end.
Proof.
  destruct w as [s t l]. exec_op.
  destruct (error (server env _)); reflexivity.
Qed.

Lemma deleteNote_run (id : value) (env : Env) (w : World) :
  deleteNote id env w =
  let q := QDelete "notes" "id" id in
  match error (server env q) with
  | Some msg =>
      (Ok false,
       {| ui := ui w; ticks := ticks w;
          log := EAlert ("Failed to delete note: " +:+ msg)
                   :: EQuery q :: log w |})
  | None =>
      (Ok true, {| ui := ui w; ticks := ticks w; log := EQuery q :: log w |})
  end.
Proof.
  destruct w as [s t l]. exec_op.
  destruct (error (server env _)); reflexivity.
Qed.

Lemma handleCreate_run (env : Env) (st : State) :
  dispatch NewNote env st =
  let q := create_query env in
  match error (server env q) with
  | Some msg =>
      (Ok tt,
       {| ui := with_saving false st; ticks := 1;
          log := [ESetSaving false;
                  EAlert ("Failed to create note: " +:+ msg);
                  EQuery q; ESetSaving true] |})
  | None =>
      match first_row (data (server env q)) with
      | Some n =>
          (Ok tt,
           {| ui := {| notes := n :: notes st; selectedId := field "id" n;
                       editingNote := Some n; loading := loading st;
                       saving := false |};
              ticks := 1;
              log := [ESetEditingNote (Some n); ESetSelectedId (field "id" n);
                      ESetNotes (n :: notes st); ESetSaving false;
                      EQuery q; ESetSaving true] |})
      | None =>
          (Ok tt,
           {| ui := with_saving false st; ticks := 1;
              log := [ESetSaving false; EQuery q; ESetSaving true] |})
      end
  end.
Proof.
  destruct st as [ns sel ed ld sv]. unfold create_query. exec.
  rewrite createNote_run. cbv [ticks ui log].
  destruct (error (server env _)); [reflexivity|].
  destruct (first_row _); reflexivity.
Qed.

Lemma handleDelete_run (env : Env) (st : State) :
  truthy (selectedId st) = true ->
  dispatch Delete env st =
  let q := delete_query st in
  match error (server env q) with
  | Some msg =>
      (Ok tt,
       {| ui := with_saving false st; ticks := 0;
          log := [ESetSaving false;
                  EAlert ("Failed to delete note: " +:+ msg);
                  EQuery q; ESetSaving true] |})
  | None =>
      let rest :=
        List.filter
          (fun n => negb (strict_eq (field "id" n) (selectedId st)))
          (notes st) in
      (Ok tt,
       {| ui := {| notes := rest; selectedId := VNull; editingNote := None;
                   loading := loading st; saving := false |};
          ticks := 0;
          log := [ESetSelectedId VNull; ESetEditingNote None; ESetNotes rest;
                  ESetSaving false; EQuery q; ESetSaving true] |})
  end.
Proof.
  destruct st as [ns sel ed ld sv]. unfold delete_query. simpl. intros H.
  exec. rewrite H. rewrite deleteNote_run. cbv [ticks ui log].
  destruct (error (server env _)); reflexivity.
Qed.

(** [handleSave] and [handleDelete] return at once when there is nothing to
    save or to delete: no setter is called and no request is sent. *)
Lemma handleSave_no_buffer (env : Env) (st : State) :
  editingNote st = None ->
  dispatch Save env st = (Ok tt, {| ui := st; ticks := 0; log := [] |}).
Proof. destruct st as [ns sel ed ld sv]. simpl. intros ->. reflexivity. Qed.

Lemma handleDelete_falsy (env : Env) (st : State) :
  truthy (selectedId st) = false ->
  dispatch Delete env st = (Ok tt, {| ui := st; ticks := 0; log := [] |}).
Proof.
  destruct st as [ns sel ed ld sv]. simpl. intros H.
  exec. rewrite H. reflexivity.
Qed.

Lemma handleSave_run (env : Env) (st : State) (e : obj) (t c : string) :
  editingNote st = Some e ->
  field "title" e = VStr t ->
  field "content" e = VStr c ->
  dispatch Save env st =
  let q := save_query env e t c in
  match error (server env q) with
  | Some msg =>
      (Ok tt,
       {| ui := with_saving false st; ticks := 1;
          log := [ESetSaving false;
                  EAlert ("Failed to update note: " +:+ msg);
                  EQuery q; ESetSaving true] |})
  | None =>
      match first_row (data (server env q)) with
      | Some u =>
          let replaced :=
            map (fun n =>
                   if strict_eq (field "id" n)
                                (field "id" (trimmed_buffer e t c))
                   then u else n) (notes st) in
          (Ok tt,
           {| ui := {| notes := replaced; selectedId := selectedId st;
                       editingNote := Some u; loading := loading st;
                       saving := false |};
              ticks := 1;
              log := [ESetEditingNote (Some u); ESetNotes replaced;
                      ESetSaving false; EQuery q; ESetSaving true] |})
      | None =>
          (Ok tt,
           {| ui := with_saving false st; ticks := 1;
              log := [ESetSaving false; EQuery q; ESetSaving true] |})
      end
  end.
Proof.
  destruct st as [ns sel ed ld sv]. simpl. intros -> Ht Hc.
  unfold save_query, trimmed_buffer. exec. rewrite Ht, Hc.
  rewrite updateNote_run. cbv [ticks ui log].
  destruct (error (server env _)); [reflexivity|].
  destruct (first_row _); reflexivity.
Qed.

(** [handleSave] on a buffer whose title or content is not a string: the
    call of [trim] throws after [saving] was set, and nothing is sent. *)
Lemma handleSave_type_error (env : Env) (st : State) (e : obj) :
  editingNote st = Some e ->
  (forall t c, field "title" e = VStr t -> field "content" e = VStr c ->
               False) ->
  dispatch Save env st =
  (Throw "TypeError",
   {| ui := with_saving true st; ticks := 0; log := [ESetSaving true] |}).
Proof.
  destruct st as [ns sel ed ld sv]. simpl. intros -> H. exec.
  destruct (field "title" e) as [| | | |t]; try reflexivity.
  destruct (field "content" e) as [| | | |c]; try reflexivity.
  destruct (H t c); reflexivity.
Qed.

(** ** C10: nothing to save, nothing to delete *)

(** C10.  When the edit buffer is empty, Save changes no state cell
    (the saving flag included), calls no setter and sends no request; when
    no note is selected ([selectedId] is [null]), the same holds of
    Delete. *)
Theorem save_and_delete_are_noops_when_idle (env : Env) (st : State) :
  (editingNote st = None ->
   dispatch Save env st = (Ok tt, {| ui := st; ticks := 0; log := [] |})) /\
  (selectedId st = VNull ->
   dispatch Delete env st = (Ok tt, {| ui := st; ticks := 0; log := [] |})).
Proof.
  split.
  - apply handleSave_no_buffer.
  - intros H. apply handleDelete_falsy. by rewrite H.
Qed.

(** ** C3: a failed write changes nothing but the saving flag *)

(** The requests of the three write actions. *)
Lemma trace_create_queries (env : Env) (st : State) :
  queries (trace NewNote env st) = [create_query env].
Proof.
  unfold trace. rewrite handleCreate_run. cbv zeta.
  destruct (error _); [reflexivity|]. destruct (first_row _); reflexivity.
Qed.

Lemma trace_delete_queries (env : Env) (st : State) :
  queries (trace Delete env st) =
  if truthy (selectedId st) then [delete_query st] else [].
Proof.
  unfold trace. destruct (truthy (selectedId st)) eqn:H.
  - rewrite handleDelete_run by done. cbv zeta.
    destruct (error _); reflexivity.
  - rewrite handleDelete_falsy by done. reflexivity.
Qed.

Lemma in_queries (q : query) (l : list event) :
  In (EQuery q) l <-> In q (queries l).
Proof.
  induction l as [|e l IH]; [done|].
  destruct e; simpl; rewrite <- IH; split; intros H;
    try (destruct H as [H|H]; [discriminate H|exact H]); try (by right).
  - destruct H as [[= ->]|H]; [by left|by right].
  - destruct H as [->|H]; [by left|by right].
Qed.

(** Whether the title and the content of a buffer are both strings. *)
Lemma buffer_texts (e : obj) :
  (exists t c, field "title" e = VStr t /\ field "content" e = VStr c) \/
  (forall t c, field "title" e = VStr t -> field "content" e = VStr c ->
               False).
Proof.
  destruct (field "title" e) as [| | | |t];
    try (right; intros ? ? H; discriminate H).
  destruct (field "content" e) as [| | | |c];
    try (right; intros ? ? _ H; discriminate H).
  left. by exists t, c.
Qed.

(** C3.  For every state and every write action (Create, Save, Delete)
    whose request to the store is answered with an error: the note list,
    the selection and the edit buffer are what they were; the handler does
    not throw; and the log is exactly: saving set to true, the request, one
    alert, saving set to false. *)
Theorem failed_write_changes_only_saving
    (a : action) (env : Env) (st : State) (q : query) :
  is_write a = true ->
  In (EQuery q) (trace a env st) ->
  error (server env q) <> None ->
  notes (step a env st) = notes st /\
  selectedId (step a env st) = selectedId st /\
  editingNote (step a env st) = editingNote st /\
  loading (step a env st) = loading st /\
  saving (step a env st) = false /\
  fst (dispatch a env st) = Ok tt /\
  exists msg,
    trace a env st = [ESetSaving true; EQuery q; EAlert msg; ESetSaving false].
Proof.
  intros Hw Hin Herr. apply in_queries in Hin.
  destruct a; try discriminate Hw.
  - (* Create *)
    rewrite trace_create_queries in Hin. destruct Hin as [<-|[]].
    unfold step, trace. rewrite handleCreate_run. cbv zeta.
    destruct (error (server env (create_query env))) as [msg|]; [|done].
    repeat split; try reflexivity. by eexists.
  - (* Save *)
    destruct (editingNote st) as [e|] eqn:He.
    2:{ unfold trace in Hin. rewrite handleSave_no_buffer in Hin by done.
        destruct Hin. }
    destruct (buffer_texts e) as [(t & c & Ht & Hc)|Hbad].
    2:{ unfold trace in Hin.
        rewrite (handleSave_type_error env st e He Hbad) in Hin.
        simpl in Hin. destruct Hin. }
    assert (Hq : q = save_query env e t c).
    { unfold trace in Hin. rewrite (handleSave_run env st e t c He Ht Hc) in Hin.
      cbv zeta in Hin.
      destruct (error (server env (save_query env e t c)));
        [|destruct (first_row _)]; simpl in Hin;
        destruct Hin as [<-|[]]; reflexivity. }
    subst q. unfold step, trace.
    rewrite (handleSave_run env st e t c He Ht Hc). cbv zeta.
    destruct (error (server env (save_query env e t c))) as [msg|]; [|done].
    rewrite <- He. repeat split; try reflexivity. by eexists.
  - (* Delete *)
    rewrite trace_delete_queries in Hin.
    destruct (truthy (selectedId st)) eqn:Hsel; [|destruct Hin].
    destruct Hin as [<-|[]].
    unfold step, trace. rewrite handleDelete_run by done. cbv zeta.
    destruct (error (server env (delete_query st))) as [msg|]; [|done].
    repeat split; try reflexivity. by eexists.
Qed.

(** ** C1: creating a note *)

Lemma blank_note_fields (now : string) :
  blank_note now !! "title" = Some (VStr EmptyString) /\
  blank_note now !! "content" = Some (VStr EmptyString) /\
  blank_note now !! "created_at" = Some (VStr now) /\
  blank_note now !! "updated_at" = Some (VStr now) /\
  dom (blank_note now)
  = ({["title"; "content"; "created_at"; "updated_at"]} : gset string).
Proof.
  unfold blank_note. repeat split; by simplify_map_eq.
Qed.

(** C1.  A Create action sends one request: the insertion of one row whose
    title and content are the empty string and whose [created_at] and
    [updated_at] are the same reading of the clock, with no other column.
    When the store answers without an error and with a row [n], the list
    becomes [n] followed by the former list, [n.id] becomes the selection, a
    copy of [n] becomes the edit buffer, and saving is false again. *)
Theorem create_prepends_and_selects (env : Env) (st : State) :
  let now := clock env 0 in
  let q := QInsert "notes" [blank_note now] in
  (blank_note now !! "title" = Some (VStr EmptyString) /\
   blank_note now !! "content" = Some (VStr EmptyString) /\
   blank_note now !! "created_at" = Some (VStr now) /\
   blank_note now !! "updated_at" = Some (VStr now) /\
   dom (blank_note now)
   = ({["title"; "content"; "created_at"; "updated_at"]} : gset string)) /\
  queries (trace NewNote env st) = [q] /\
  forall n : obj,
    error (server env q) = None ->
    first_row (data (server env q)) = Some n ->
    fst (dispatch NewNote env st) = Ok tt /\
    trace NewNote env st
    = [ESetSaving true; EQuery q; ESetSaving false;
       ESetNotes (n :: notes st); ESetSelectedId (field "id" n);
       ESetEditingNote (Some n)] /\
    step NewNote env st
    = {| notes := n :: notes st; selectedId := field "id" n;
         editingNote := Some n; loading := loading st; saving := false |}.
Proof.
  intros now q. split; [apply blank_note_fields|].
  split; [apply trace_create_queries|].
  intros n Herr Hrow.
  unfold step, trace. rewrite handleCreate_run. cbv zeta.
  unfold create_query. fold now q. rewrite Herr, Hrow.
  repeat split.
Qed.

(** ** C2: deleting the selected note *)

Lemma filter_out_absent (v : value) (l : list obj) :
  ~ In v (map (field "id") l) ->
  List.filter (fun n => negb (strict_eq (field "id" n) v)) l = l.
Proof.
  induction l as [|n l IH]; [done|]. simpl. intros H.
  destruct (strict_eq (field "id" n) v) eqn:E.
  - apply strict_eq_true in E. destruct H. by left.
  - simpl. f_equal. apply IH. intros Hin. apply H. by right.
Qed.

(** In a list with unique ids, filtering out an id that occurs removes the
    one note that has it. *)
Lemma filter_out_unique (v : value) (l : list obj) :
  ids_unique l ->
  In v (map (field "id") l) ->
  exists before n after,
    l = before ++ n :: after /\ field "id" n = v /\
    ~ In v (map (field "id") (before ++ after)) /\
    List.filter (fun n => negb (strict_eq (field "id" n) v)) l
    = before ++ after.
Proof.
  unfold ids_unique. induction l as [|m l IH]; [done|].
  simpl. intros Hnd Hin. apply NoDup_cons in Hnd as [Hm Hnd].
  rewrite list_elem_of_In in Hm.
  destruct (strict_eq (field "id" m) v) eqn:E.
  - apply strict_eq_true in E. subst v.
    exists [], m, l. simpl. repeat split; [done|].
    by apply filter_out_absent.
  - apply strict_eq_false in E. destruct Hin as [Hin|Hin]; [done|].
    destruct (IH Hnd Hin) as (before & n & after & -> & Hid & Hout & Hf).
    exists (m :: before), n, after. simpl. rewrite Hf.
    repeat split; [done|]. intros [H|H]; [done|by apply Hout].
Qed.

(** C2.  In a list with unique ids that holds the selected note, a Delete
    whose request is sent and answered without an error removes from the
    list exactly the note with the selected id (the notes before and after
    it stay, in order, and none of them has that id), and empties the
    selection and the edit buffer. *)
Theorem delete_removes_the_selected_note
    (env : Env) (st : State) (q : query) :
  ids_unique (notes st) ->
  In (selectedId st) (map (field "id") (notes st)) ->
  In (EQuery q) (trace Delete env st) ->
  error (server env q) = None ->
  exists before n after,
    notes st = before ++ n :: after /\
    field "id" n = selectedId st /\
    ~ In (selectedId st) (map (field "id") (before ++ after)) /\
    q = QDelete "notes" "id" (selectedId st) /\
    fst (dispatch Delete env st) = Ok tt /\
    trace Delete env st
    = [ESetSaving true; EQuery q; ESetSaving false;
       ESetNotes (before ++ after); ESetEditingNote None;
       ESetSelectedId VNull] /\
    step Delete env st
    = {| notes := before ++ after; selectedId := VNull; editingNote := None;
         loading := loading st; saving := false |} /\
    length (notes st) = S (length (notes (step Delete env st))).
Proof.
  intros Hu Hin Hq Herr. apply in_queries in Hq.
  rewrite trace_delete_queries in Hq.
  destruct (truthy (selectedId st)) eqn:Hsel; [|destruct Hq].
  destruct Hq as [<-|[]].
  destruct (filter_out_unique _ _ Hu Hin)
    as (before & n & after & Hl & Hid & Hout & Hf).
  exists before, n, after.
  unfold step, trace. rewrite handleDelete_run by done. cbv zeta.
  rewrite Herr, Hf. simpl.
  repeat split; try done.
  rewrite Hl, !length_app. simpl. lia.
Qed.

(** ** C6: saving the edit buffer *)

Lemma trimmed_buffer_id (e : obj) (t c : string) :
  field "id" (trimmed_buffer e t c) = field "id" e.
Proof. unfold trimmed_buffer. by rewrite !field_insert_ne. Qed.

Lemma trimmed_buffer_patch (e : obj) (t c now : string) :
  update_patch (trimmed_buffer e t c) now
  = <["updated_at" := VStr now]>
      (<["content" := VStr (trim c)]> (<["title" := VStr (trim t)]> ∅)).
Proof.
  unfold update_patch, trimmed_buffer.
  rewrite field_insert, field_insert_ne, field_insert by done. reflexivity.
Qed.

Lemma trace_save_queries
    (env : Env) (st : State) (e : obj) (t c : string) :
  editingNote st = Some e ->
  field "title" e = VStr t ->
  field "content" e = VStr c ->
  queries (trace Save env st) = [save_query env e t c].
Proof.
  intros He Ht Hc. unfold trace.
  rewrite (handleSave_run env st e t c He Ht Hc). cbv zeta.
  destruct (error _); [reflexivity|]. destruct (first_row _); reflexivity.
Qed.

(** C6.  For a Save on an edit buffer [e] with title [t] and content [c]:
    the one request sent is the update, for the id of [e], of the title to
    [trim t], of the content to [trim c] and of [updated_at] to the reading
    of the clock, where [trim] removes exactly the leading and trailing
    white space.  When the store answers without an error and with a row
    [u], every entry of the list whose id is that of [e] becomes [u], the
    other entries stay, the selection is unchanged, the buffer becomes [u]
    and saving is false again. *)
Theorem save_trims_and_replaces
    (env : Env) (st : State) (e : obj) (t c : string) :
  let now := clock env 0 in
  let q := QUpdate "notes"
             (<["updated_at" := VStr now]>
                (<["content" := VStr (trim c)]>
                   (<["title" := VStr (trim t)]> ∅)))
             "id" (field "id" e) in
  editingNote st = Some e ->
  field "title" e = VStr t ->
  field "content" e = VStr c ->
  trimmed_of t (trim t) /\ trimmed_of c (trim c) /\
  queries (trace Save env st) = [q] /\
  forall u : obj,
    error (server env q) = None ->
    first_row (data (server env q)) = Some u ->
    let replaced :=
      map (fun n => if strict_eq (field "id" n) (field "id" e) then u else n)
          (notes st) in
    fst (dispatch Save env st) = Ok tt /\
    trace Save env st
    = [ESetSaving true; EQuery q; ESetSaving false; ESetNotes replaced;
       ESetEditingNote (Some u)] /\
    step Save env st
    = {| notes := replaced; selectedId := selectedId st;
         editingNote := Some u; loading := loading st; saving := false |}.
Proof.
  intros now q He Ht Hc.
  assert (Hq : save_query env e t c = q).
  { unfold save_query. by rewrite trimmed_buffer_id, trimmed_buffer_patch. }
  split; [apply trim_spec|]. split; [apply trim_spec|]. split.
  { rewrite (trace_save_queries env st e t c He Ht Hc). by rewrite Hq. }
  intros u Herr Hrow replaced.
  unfold step, trace. rewrite (handleSave_run env st e t c He Ht Hc).
  cbv zeta. rewrite Hq, Herr, Hrow, trimmed_buffer_id. fold replaced.
  repeat split.
Qed.

(** ** C4: what an update writes *)

Lemma update_patch_fields (note : obj) (now : string) :
  update_patch note now !! "title" = Some (field "title" note) /\
  update_patch note now !! "content" = Some (field "content" note) /\
  update_patch note now !! "updated_at" = Some (VStr now) /\
  update_patch note now !! "id" = None /\
  update_patch note now !! "created_at" = None /\
  dom (update_patch note now)
  = ({["title"; "content"; "updated_at"]} : gset string).
Proof.
  unfold update_patch. repeat split; by simplify_map_eq.
Qed.

(** A column that the patch does not name keeps its value in every row. *)
Lemma apply_update_other_column
    (patch : obj) (col : string) (v : value) (k : string) (rows : list obj) :
  patch !! k = None ->
  map (fun r : obj => r !! k) (apply_update patch col v rows)
  = map (fun r : obj => r !! k) rows.
Proof.
  intros Hk. unfold apply_update. rewrite map_map.
  apply map_ext. intros r.
  destruct (strict_eq (field col r) v); [|done].
  by rewrite lookup_union_r.
Qed.

(** C4.  [updateNote note] sends one request and sets no state cell: the
    update of the rows whose id is [note.id] with exactly three columns,
    the title and the content of [note] and [updated_at] at the reading of
    the clock.  The columns [id] and [created_at] are not among them, so a
    store applying the update keeps the [id] and the [created_at] of every
    row. *)
Theorem update_keeps_id_and_created_at
    (note : obj) (env : Env) (st : State) :
  let now := clock env 0 in
  let patch := update_patch note now in
  let w := snd (run (updateNote note) env st) in
  queries (rev (log w)) = [QUpdate "notes" patch "id" (field "id" note)] /\
  ui w = st /\
  dom patch = ({["title"; "content"; "updated_at"]} : gset string) /\
  patch !! "title" = Some (field "title" note) /\
  patch !! "content" = Some (field "content" note) /\
  patch !! "updated_at" = Some (VStr now) /\
  forall rows : list obj,
    map (fun r : obj => r !! "id")
        (apply_update patch "id" (field "id" note) rows)
    = map (fun r : obj => r !! "id") rows /\
    map (fun r : obj => r !! "created_at")
        (apply_update patch "id" (field "id" note) rows)
    = map (fun r : obj => r !! "created_at") rows.
Proof.
  intros now patch w.
  destruct (update_patch_fields note now) as (Ht & Hc & Hu & Hid & Hcr & Hd).
  assert (Hw : queries (rev (log w))
               = [QUpdate "notes" patch "id" (field "id" note)] /\ ui w = st).
  { unfold w, run. rewrite updateNote_run. cbv zeta. cbv [ticks ui log].
    fold now. fold patch. destruct (error _); by split. }
  destruct Hw as [Hq Hui].
  repeat split; try done; by apply apply_update_other_column.
Qed.

(** ** C7: loading the list *)

Lemma loadNotes_run (env : Env) (st : State) :
  dispatch Mount env st =
  let rows :=
    match error (server env list_query) with
    | Some _ => []
    | None => rows_or_empty (data (server env list_query))
    end in
  (Ok tt,
   {| ui := {| notes := rows; selectedId := selectedId st;
               editingNote := editingNote st; loading := false;
               saving := saving st |};
      ticks := 0;
      log := [ESetLoading false; ESetNotes rows; EQuery list_query;
              ESetLoading true] |}).
Proof.
  destruct st as [ns sel ed ld sv]. unfold list_query. exec.
  destruct (error (server env _)); reflexivity.
Qed.

(** C7.  Loading sends one request, for all notes by [updated_at]
    descending, and never throws.  When the store answers with an error the
    list becomes empty and the log holds no alert.  When it answers without
    one the list becomes the rows of the answer, all of them and in the
    order of the answer: descending by [updated_at] when the store honoured
    the order asked for. *)
Theorem load_degrades_to_empty_list (env : Env) (st : State) :
  let q := QSelect "notes" "updated_at" false in
  let r := server env q in
  queries (trace Mount env st) = [q] /\
  fst (dispatch Mount env st) = Ok tt /\
  alerts (trace Mount env st) = [] /\
  (error r <> None ->
   notes (step Mount env st) = [] /\
   trace Mount env st
   = [ESetLoading true; EQuery q; ESetNotes []; ESetLoading false]) /\
  (error r = None ->
   notes (step Mount env st) = rows_or_empty (data r) /\
   (descending_by "updated_at" (rows_or_empty (data r)) = true ->
    descending_by "updated_at" (notes (step Mount env st)) = true)).
Proof.
  intros q r. unfold step, trace. rewrite loadNotes_run. cbv zeta.
  fold q. unfold list_query. fold q. fold r.
  repeat split; destruct (error r); try done.
Qed.

(** ** C5: selecting another note discards the edits *)

Lemma handleSelect_run (id : value) (env : Env) (st : State) :
  dispatch (Select id) env st =
  (Ok tt,
   {| ui := {| notes := notes st; selectedId := id;
               editingNote := find_by_id id (notes st);
               loading := loading st; saving := saving st |};
      ticks := 0;
      log := [ESetEditingNote (find_by_id id (notes st));
              ESetSelectedId id] |}).
Proof.
  destruct st as [ns sel ed ld sv]. unfold find_by_id. exec.
  destruct (find _ ns); reflexivity.
Qed.

Lemma handleChange_run (i : input) (text : string) (env : Env) (st : State) :
  dispatch (Change i text) env st =
  let b := <["updated_at" := VStr (clock env 0)]>
             (<[input_name i := VStr text]>
                (spread_nullable (editingNote st))) in
  (Ok tt,
   {| ui := {| notes := notes st; selectedId := selectedId st;
               editingNote := Some b; loading := loading st;
               saving := saving st |};
      ticks := 1;
      log := [ESetEditingNote (Some b)] |}).
Proof. destruct st as [ns sel ed ld sv]. reflexivity. Qed.

Lemma typing_keeps (edits : list (input * string * Env)) (st : State) :
  notes (steps (typing edits) st) = notes st /\
  selectedId (steps (typing edits) st) = selectedId st.
Proof.
  revert st. induction edits as [|[[i text] env] edits IH]; intros st.
  - by split.
  - simpl. destruct (IH (step (Change i text) env st)) as [-> ->].
    unfold step. rewrite handleChange_run. by split.
Qed.

Lemma steps_app (tr1 tr2 : list (action * Env)) (st : State) :
  steps (tr1 ++ tr2) st = steps tr2 (steps tr1 st).
Proof.
  revert st. induction tr1 as [|[a env] tr1 IH]; intros st; [done|].
  simpl. apply IH.
Qed.

(** In a list with unique ids, looking a note of the list up by its id
    finds that note. *)
Lemma find_by_id_unique (n : obj) (l : list obj) :
  ids_unique l -> In n l -> find_by_id (field "id" n) l = Some n.
Proof.
  unfold ids_unique, find_by_id. induction l as [|m l IH]; [done|].
  simpl. intros Hnd Hin. apply NoDup_cons in Hnd as [Hm Hnd].
  rewrite list_elem_of_In in Hm.
  destruct Hin as [->|Hin]; [by rewrite strict_eq_refl|].
  destruct (strict_eq (field "id" m) (field "id" n)) eqn:E.
  - apply strict_eq_true in E. destruct Hm. rewrite E.
    apply in_map. exact Hin.
  - by apply IH.
Qed.

(** C5.  From any state whose list has unique ids and holds the notes [A]
    and [B]: after selecting [A] and typing any texts into the title and
    content fields, the list is the list of the start while the buffer
    holds the text typed last; after then selecting [B] without saving, the
    note list is still the list of the start, entry of [A] included, the
    edit buffer is a copy of [B], and [B] is the selection. *)
Theorem selecting_another_note_discards_edits
    (st : State) (A B : obj) (envA envB : Env)
    (edits : list (input * string * Env)) :
  ids_unique (notes st) ->
  In A (notes st) ->
  In B (notes st) ->
  let after_edits :=
    steps ((Select (field "id" A), envA) :: typing edits) st in
  let final := step (Select (field "id" B)) envB after_edits in
  notes after_edits = notes st /\
  selectedId after_edits = field "id" A /\
  (forall earlier i text env,
     edits = earlier ++ [(i, text, env)] ->
     exists b : obj, editingNote after_edits = Some b /\
                     field (input_name i) b = VStr text) /\
  notes final = notes st /\
  In A (notes final) /\
  editingNote final = Some B /\
  selectedId final = field "id" B.
Proof.
  intros Hu HA HB after_edits final.
  assert (Hn : notes after_edits = notes st /\
               selectedId after_edits = field "id" A).
  { unfold after_edits. simpl.
    destruct (typing_keeps edits (step (Select (field "id" A)) envA st))
      as [-> ->].
    unfold step. rewrite handleSelect_run. by split. }
  destruct Hn as [Hn Hs].
  split; [exact Hn|]. split; [exact Hs|]. split.
  { intros earlier i text env ->. unfold after_edits.
    unfold typing. rewrite map_app, app_comm_cons, steps_app. simpl.
    eexists. split; [reflexivity|].
    rewrite field_insert_ne, field_insert by (destruct i; discriminate).
    reflexivity. }
  unfold final, step. rewrite handleSelect_run. simpl.
  rewrite Hn. repeat split; try done.
  by rewrite find_by_id_unique.
Qed.

(** ** C8: the local [updated_at] stamp and the [Last updated] label *)

Lemma updated_unset_initial : updated_unset initial_state.
Proof. split; [constructor|]. intros e H. discriminate H. Qed.

Lemma first_row_in (d : option (list obj)) (n : obj) :
  first_row d = Some n -> In n (rows_or_empty d).
Proof.
  destruct d as [[|r l]|]; simpl; try discriminate. intros [= ->]. by left.
Qed.

Lemma find_by_id_in (id : value) (l : list obj) (n : obj) :
  find_by_id id l = Some n -> In n l.
Proof. unfold find_by_id. intros H. by apply find_some in H as [H _]. Qed.

Lemma input_name_not_updated (i : input) : input_name i <> "updated".
Proof. destruct i; discriminate. Qed.

Lemma updated_unset_with_saving (b : bool) (st : State) :
  updated_unset st -> updated_unset (with_saving b st).
Proof. intros [Hn Hb]. by split. Qed.

(** A field change writes the properties [title] or [content] and
    [updated_at] of the buffer, and no other. *)
Lemma change_keeps_updated_unset
    (i : input) (text : string) (env : Env) (st : State) :
  updated_unset st -> updated_unset (step (Change i text) env st).
Proof.
  intros [Hn Hb]. unfold step. rewrite handleChange_run. cbv zeta.
  split; simpl; [done|]. intros e [= <-].
  rewrite lookup_insert_ne by done.
  rewrite lookup_insert_ne by apply input_name_not_updated.
  destruct (editingNote st) as [b|]; simpl; [by apply Hb|done].
Qed.

(** No action gives a note or the buffer a property [updated], as long as
    the store has no such column. *)
Lemma step_keeps_updated_unset (a : action) (env : Env) (st : State) :
  no_updated_column env ->
  updated_unset st ->
  updated_unset (step a env st).
Proof.
  intros Henv Hst. pose proof Hst as [Hn Hb].
  destruct a; [| | |by apply change_keeps_updated_unset| |]; unfold step.
  - (* Mount *)
    rewrite loadNotes_run. cbv zeta. split; simpl; [|done].
    destruct (error _); [constructor|].
    apply Forall_forall. intros r Hr. apply (Henv list_query).
    by apply list_elem_of_In.
  - (* Select *)
    rewrite handleSelect_run. split; simpl; [done|].
    intros e He. apply find_by_id_in in He.
    rewrite Forall_forall in Hn. apply Hn. by apply list_elem_of_In.
  - (* Create *)
    rewrite handleCreate_run. cbv zeta.
    destruct (error _); [by apply updated_unset_with_saving|].
    destruct (first_row _) as [n|] eqn:Hrow;
      [|by apply updated_unset_with_saving].
    apply first_row_in, Henv in Hrow. split; simpl.
    + by constructor.
    + by intros e [= <-].
  - (* Save *)
    destruct (editingNote st) as [e|] eqn:He.
    2:{ by rewrite handleSave_no_buffer. }
    destruct (buffer_texts e) as [(t & c & Ht & Hc)|Hbad].
    2:{ rewrite (handleSave_type_error env st e He Hbad).
        by apply updated_unset_with_saving. }
    rewrite (handleSave_run env st e t c He Ht Hc). cbv zeta.
    destruct (error _); [by apply updated_unset_with_saving|].
    destruct (first_row _) as [u|] eqn:Hrow;
      [|by apply updated_unset_with_saving].
    apply first_row_in, Henv in Hrow. split; simpl.
    + apply Forall_map. eapply Forall_impl; [exact Hn|].
      intros n Hnu. simpl. by destruct (strict_eq _ _).
    + by intros e' [= <-].
  - (* Delete *)
    destruct (truthy (selectedId st)) eqn:Hsel.
    2:{ by rewrite handleDelete_falsy. }
    rewrite handleDelete_run by done. cbv zeta.
    destruct (error _); [by apply updated_unset_with_saving|].
    split; simpl; [|done].
    apply Forall_forall. intros n Hin.
    apply list_elem_of_In, filter_In in Hin as [Hin _].
    rewrite Forall_forall in Hn. apply Hn. by apply list_elem_of_In.
Qed.

Lemma steps_keep_updated_unset (tr : list (action * Env)) (st : State) :
  Forall (fun ae : action * Env => no_updated_column ae.2) tr ->
  updated_unset st ->
  updated_unset (steps tr st).
Proof.
  revert st. induction tr as [|[a env] tr IH]; intros st Htr Hst; [done|].
  apply Forall_cons in Htr as [Ha Htr]. simpl.
  apply IH; [done|]. by apply step_keeps_updated_unset.
Qed.

Lemma label_hidden (st : State) :
  updated_unset st -> lastUpdatedLabel st = None.
Proof.
  intros [_ Hb]. unfold lastUpdatedLabel.
  destruct (editingNote st) as [e|]; [|done].
  unfold field. rewrite (Hb e) by done. simpl.
  by destruct (truthy (selectedId st)).
Qed.

(** C8.  In every state the application reaches from its first render,
    through any actions against a store whose rows have no [updated]
    column, a field change puts into the edit buffer the text typed and an
    [updated_at] read from the clock; the buffer has no property [updated],
    before and after, so the [Last updated] label, which reads that
    property, shows nothing. *)
Theorem local_stamp_is_never_displayed
    (tr : list (action * Env)) (i : input) (text : string) (env : Env) :
  Forall (fun ae : action * Env => no_updated_column ae.2) tr ->
  let st := steps tr initial_state in
  let st' := step (Change i text) env st in
  lastUpdatedLabel st = None /\
  (exists b : obj,
     editingNote st' = Some b /\
     field "updated_at" b = VStr (clock env 0) /\
     field (input_name i) b = VStr text /\
     field "updated" b = VUndef) /\
  lastUpdatedLabel st' = None.
Proof.
  intros Htr st st'.
  assert (Hst : updated_unset st)
    by (apply steps_keep_updated_unset; [done|apply updated_unset_initial]).
  assert (Hst' : updated_unset st')
    by (by apply change_keeps_updated_unset).
  split; [by apply label_hidden|]. split; [|by apply label_hidden].
  unfold st', step. rewrite handleChange_run. cbv zeta. simpl.
  eexists. split; [reflexivity|].
  rewrite field_insert, field_insert_ne, field_insert
    by (destruct i; discriminate).
  repeat split.
  destruct Hst' as [_ Hb]. unfold field. erewrite Hb; [done|].
  unfold st', step. rewrite handleChange_run. reflexivity.
Qed.

(** ** C9: the store client needs both configuration values *)

Lemma truthy_getenv (penv : gmap string string) (k : string) :
  truthy (Client.getenv penv k) = true <-> Client.present penv k.
Proof.
  unfold Client.getenv, Client.present.
  destruct (penv !! k) as [s|]; simpl.
  - destruct (String.eqb s EmptyString) eqn:E; simpl.
    + apply String.eqb_eq in E. split; [done|]. intros (s' & [= <-] & H).
      done.
    + apply String.eqb_neq in E. split; [|done]. intros _. by exists s.
  - split; [done|]. by intros (s & H & _).
Qed.

(** [a || b] over two variables of the environment is truthy exactly when
    one of them is set and not empty, and is then a non-empty string. *)
Lemma truthy_or_else_getenv (penv : gmap string string) (k1 k2 : string) :
  let v := or_else (Client.getenv penv k1) (Client.getenv penv k2) in
  (truthy v = true <-> Client.present penv k1 \/ Client.present penv k2) /\
  (truthy v = true -> exists s, v = VStr s /\ s <> EmptyString /\
                                (penv !! k1 = Some s \/ penv !! k2 = Some s)).
Proof.
  intros v. unfold v, or_else.
  destruct (truthy (Client.getenv penv k1)) eqn:E1.
  - split.
    + rewrite E1. split; [|done]. intros _. left. by apply truthy_getenv.
    + intros _. apply truthy_getenv in E1 as (s & Hs & Hne).
      exists s. unfold Client.getenv. rewrite Hs. by repeat split; [|left].
  - split.
    + rewrite truthy_getenv. split; [by right|]. intros [H|H]; [|done].
      apply truthy_getenv in H. congruence.
    + intros E2. apply truthy_getenv in E2 as (s & Hs & Hne).
      exists s. unfold Client.getenv. rewrite Hs. by repeat split; [|right].
Qed.

(** C9.  A configuration value is given when one of its two environment
    variables is set and not empty.  If the URL or the key is not given,
    evaluating the client module throws its credentials error, whatever
    the library's constructor would do, and the application does not
    start.  If both are given, that error is not thrown and the two values
    are handed to the constructor: when it accepts them the client built
    from them is exported and the application starts in its initial state;
    when it refuses them the module fails with the constructor's error
    and the application does not start. *)
Theorem client_requires_both_values
    (check : value -> value -> option string) (penv : gmap string string) :
  let url_given := Client.present penv "REACT_APP_SUPABASE_URL" \/
                   Client.present penv "SUPABASE_URL" in
  let key_given := Client.present penv "REACT_APP_SUPABASE_ANON_KEY" \/
                   Client.present penv "SUPABASE_ANON_KEY" in
  (~ url_given \/ ~ key_given ->
   Client.supabase check penv
   = Client.Thrown "Supabase credentials are not set. Please check SUPABASE_URL and SUPABASE_ANON_KEY env variables." /\
   Client.start check penv = None) /\
  (url_given /\ key_given ->
   exists url key,
     url <> EmptyString /\ key <> EmptyString /\
     (penv !! "REACT_APP_SUPABASE_URL" = Some url \/
      penv !! "SUPABASE_URL" = Some url) /\
     (penv !! "REACT_APP_SUPABASE_ANON_KEY" = Some key \/
      penv !! "SUPABASE_ANON_KEY" = Some key) /\
     Client.supabase check penv
     = Client.createClient check (VStr url) (VStr key) /\
     (forall msg, Client.supabase check penv <> Client.Thrown msg) /\
     (check (VStr url) (VStr key) = None ->
      Client.supabase check penv
      = Client.Exported (Client.CreateClient (VStr url) (VStr key)) /\
      Client.start check penv = Some initial_state) /\
     (forall msg,
        check (VStr url) (VStr key) = Some msg ->
        Client.supabase check penv = Client.Rejected msg /\
        Client.start check penv = None)).
Proof.
  intros url_given key_given.
  destruct (truthy_or_else_getenv penv "REACT_APP_SUPABASE_URL" "SUPABASE_URL")
    as [Hu Hu'].
  destruct (truthy_or_else_getenv penv "REACT_APP_SUPABASE_ANON_KEY"
                                  "SUPABASE_ANON_KEY") as [Hk Hk'].
  cbv zeta in Hu, Hu', Hk, Hk'.
  fold (Client.supabaseUrl penv) in Hu, Hu'.
  fold (Client.supabaseAnonKey penv) in Hk, Hk'.
  fold url_given in Hu. fold key_given in Hk.
  unfold Client.start, Client.supabase.
  destruct (truthy (Client.supabaseUrl penv)) eqn:Eu;
    destruct (truthy (Client.supabaseAnonKey penv)) eqn:Ek; simpl.
  - split.
    + intros [H|H]; destruct H; [by apply Hu|by apply Hk].
    + intros _. destruct (Hu' eq_refl) as (url & -> & ? & ?).
      destruct (Hk' eq_refl) as (key & -> & ? & ?).
      exists url, key. unfold Client.createClient.
      split; [done|]. split; [done|]. split; [done|]. split; [done|].
      split; [done|].
      destruct (check (VStr url) (VStr key)) as [msg|].
      * split; [done|]. split; [done|]. by intros msg' [= <-].
      * split; [done|]. split; [done|]. intros msg' H'. discriminate H'.
  - split; [done|]. intros [_ H]. apply Hk in H. discriminate H.
  - split; [done|]. intros [H _]. apply Hu in H. discriminate H.
  - split; [done|]. intros [H _]. apply Hu in H. discriminate H.
Qed.

(** ** The theorems at work on sample data *)

Lemma sample_ids_unique : ids_unique [Sample.noteB; Sample.noteA].
Proof.
  unfold ids_unique. apply (bool_decide_unpack _). vm_compute. reflexivity.
Qed.

Lemma save_and_delete_are_noops_when_idle_witness :
  editingNote Sample.idle = None /\
  selectedId Sample.idle = VNull /\
  step Save Sample.working Sample.idle = Sample.idle /\
  step Delete Sample.working Sample.idle = Sample.idle /\
  trace Save Sample.working Sample.idle = [] /\
  trace Delete Sample.working Sample.idle = [].
Proof.
  destruct (save_and_delete_are_noops_when_idle Sample.working Sample.idle)
    as [Hs Hd].
  unfold step, trace.
  rewrite (Hs eq_refl), (Hd eq_refl). repeat split.
Defined.

Lemma failed_write_changes_only_saving_witness :
  let q := save_query Sample.failing Sample.buffer "  Hello " "milk" in
  is_write Save = true /\
  In (EQuery q) (trace Save Sample.failing Sample.editing) /\
  error (server Sample.failing q) <> None /\
  notes (step Save Sample.failing Sample.editing) = notes Sample.editing /\
  editingNote (step Save Sample.failing Sample.editing)
  = editingNote Sample.editing /\
  saving (step Save Sample.failing Sample.editing) = false /\
  exists msg,
    trace Save Sample.failing Sample.editing
    = [ESetSaving true; EQuery q; EAlert msg; ESetSaving false].
Proof.
  intros q.
  assert (H1 : is_write Save = true) by reflexivity.
  assert (H2 : In (EQuery q) (trace Save Sample.failing Sample.editing))
    by (vm_compute; right; left; reflexivity).
  assert (H3 : error (server Sample.failing q) <> None)
    by (vm_compute; discriminate).
  destruct (failed_write_changes_only_saving
              Save Sample.failing Sample.editing q H1 H2 H3)
    as (Hn & _ & He & _ & Hs & _ & Ht).
  split; [exact H1|]. split; [exact H2|]. split; [exact H3|].
  split; [exact Hn|]. split; [exact He|]. split; [exact Hs|exact Ht].
Defined.

Lemma create_prepends_and_selects_witness :
  let q := QInsert "notes" [blank_note Sample.now] in
  error (server Sample.working q) = None /\
  first_row (data (server Sample.working q)) = Some Sample.created /\
  step NewNote Sample.working Sample.idle
  = {| notes := [Sample.created; Sample.noteB; Sample.noteA];
       selectedId := VNum 3; editingNote := Some Sample.created;
       loading := false; saving := false |}.
Proof.
  intros q.
  assert (H1 : error (server Sample.working q) = None) by reflexivity.
  assert (H2 : first_row (data (server Sample.working q))
               = Some Sample.created) by reflexivity.
  destruct (create_prepends_and_selects Sample.working Sample.idle)
    as (_ & _ & Hok).
  destruct (Hok Sample.created H1 H2) as (_ & _ & Hs).
  split; [exact H1|]. split; [exact H2|]. rewrite Hs. reflexivity.
Defined.

Lemma delete_removes_the_selected_note_witness :
  let q := QDelete "notes" "id" (VNum 1) in
  ids_unique (notes Sample.editing) /\
  In (selectedId Sample.editing) (map (field "id") (notes Sample.editing)) /\
  In (EQuery q) (trace Delete Sample.working Sample.editing) /\
  error (server Sample.working q) = None /\
  exists before n after,
    notes Sample.editing = before ++ n :: after /\
    field "id" n = VNum 1 /\
    notes (step Delete Sample.working Sample.editing) = before ++ after /\
    selectedId (step Delete Sample.working Sample.editing) = VNull /\
    editingNote (step Delete Sample.working Sample.editing) = None.
Proof.
  intros q.
  assert (H1 : ids_unique (notes Sample.editing)) by apply sample_ids_unique.
  assert (H2 : In (selectedId Sample.editing)
                  (map (field "id") (notes Sample.editing)))
    by (vm_compute; right; left; reflexivity).
  assert (H3 : In (EQuery q) (trace Delete Sample.working Sample.editing))
    by (vm_compute; right; left; reflexivity).
  assert (H4 : error (server Sample.working q) = None) by reflexivity.
  destruct (delete_removes_the_selected_note
              Sample.working Sample.editing q H1 H2 H3 H4)
    as (before & n & after & Hl & Hid & _ & _ & _ & _ & Hs & _).
  split; [exact H1|]. split; [exact H2|]. split; [exact H3|].
  split; [exact H4|].
  exists before, n, after. rewrite Hs.
  split; [exact Hl|]. split; [exact Hid|]. repeat split.
Defined.

Lemma save_trims_and_replaces_witness :
  let q := QUpdate "notes"
             (<["updated_at" := VStr Sample.now]>
                (<["content" := VStr "milk"]>
                   (<["title" := VStr "Hello"]> ∅)))
             "id" (VNum 1) in
  editingNote Sample.editing = Some Sample.buffer /\
  field "title" Sample.buffer = VStr "  Hello " /\
  field "content" Sample.buffer = VStr "milk" /\
  error (server Sample.working q) = None /\
  first_row (data (server Sample.working q)) = Some Sample.saved /\
  trace Save Sample.working Sample.editing
  = [ESetSaving true; EQuery q; ESetSaving false;
     ESetNotes [Sample.noteB; Sample.saved];
     ESetEditingNote (Some Sample.saved)] /\
  step Save Sample.working Sample.editing
  = {| notes := [Sample.noteB; Sample.saved]; selectedId := VNum 1;
       editingNote := Some Sample.saved; loading := false;
       saving := false |}.
Proof.
  intros q.
  assert (H1 : editingNote Sample.editing = Some Sample.buffer)
    by reflexivity.
  assert (H2 : field "title" Sample.buffer = VStr "  Hello ")
    by (vm_compute; reflexivity).
  assert (H3 : field "content" Sample.buffer = VStr "milk")
    by (vm_compute; reflexivity).
  assert (H4 : error (server Sample.working q) = None) by reflexivity.
  assert (H5 : first_row (data (server Sample.working q))
               = Some Sample.saved) by reflexivity.
  destruct (save_trims_and_replaces
              Sample.working Sample.editing Sample.buffer
              "  Hello " "milk" H1 H2 H3)
    as (_ & _ & _ & Hok).
  destruct (Hok Sample.saved H4 H5) as (_ & Ht & Hs).
  split; [exact H1|]. split; [exact H2|]. split; [exact H3|].
  split; [exact H4|]. split; [exact H5|].
  split; [rewrite Ht|rewrite Hs]; vm_compute; reflexivity.
Defined.

Lemma selecting_another_note_discards_edits_witness :
  ids_unique (notes Sample.idle) /\
  In Sample.noteA (notes Sample.idle) /\
  In Sample.noteB (notes Sample.idle) /\
  let final :=
    steps [(Select (VNum 1), Sample.working);
           (Change TitleInput "Hello", Sample.working);
           (Select (VNum 2), Sample.working)] Sample.idle in
  notes final = [Sample.noteB; Sample.noteA] /\
  editingNote final = Some Sample.noteB /\
  selectedId final = VNum 2.
Proof.
  assert (H1 : ids_unique (notes Sample.idle)) by apply sample_ids_unique.
  assert (H2 : In Sample.noteA (notes Sample.idle))
    by (right; left; reflexivity).
  assert (H3 : In Sample.noteB (notes Sample.idle)) by (left; reflexivity).
  destruct (selecting_another_note_discards_edits
              Sample.idle Sample.noteA Sample.noteB
              Sample.working Sample.working
              [(TitleInput, "Hello", Sample.working)] H1 H2 H3)
    as (_ & _ & _ & Hn & _ & He & Hs).
  split; [exact H1|]. split; [exact H2|]. split; [exact H3|].
  split; [exact Hn|]. split; [exact He|exact Hs].
Defined.

Lemma working_has_no_updated_column : no_updated_column Sample.working.
Proof.
  intros q r. destruct q; simpl.
  - intros [<-|[<-|[]]]; reflexivity.
  - intros [<-|[]]. reflexivity.
  - intros [<-|[]]. reflexivity.
  - intros [].
Qed.

Lemma local_stamp_is_never_displayed_witness :
  let tr := [(Mount, Sample.working); (Select (VNum 1), Sample.working)] in
  let st' := step (Change TitleInput "Hello") Sample.working
                  (steps tr initial_state) in
  Forall (fun ae : action * Env => no_updated_column ae.2) tr /\
  (exists b : obj,
     editingNote st' = Some b /\
     field "updated_at" b = VStr Sample.now /\
     field "title" b = VStr "Hello" /\
     field "updated" b = VUndef) /\
  truthy (selectedId st') = true /\
  lastUpdatedLabel st' = None.
Proof.
  intros tr st'.
  assert (H : Forall (fun ae : action * Env => no_updated_column ae.2) tr)
    by (repeat constructor; apply working_has_no_updated_column).
  destruct (local_stamp_is_never_displayed
              tr TitleInput "Hello" Sample.working H) as (_ & Hb & Hl).
  split; [exact H|]. split; [exact Hb|]. split; [reflexivity|exact Hl].
Defined.

Lemma load_degrades_to_empty_list_witness :
  error (server Sample.failing list_query) <> None /\
  notes (step Mount Sample.failing Sample.editing) = [] /\
  alerts (trace Mount Sample.failing Sample.editing) = [] /\
  error (server Sample.working list_query) = None /\
  descending_by "updated_at"
    (rows_or_empty (data (server Sample.working list_query))) = true /\
  notes (step Mount Sample.working initial_state)
  = [Sample.noteB; Sample.noteA] /\
  descending_by "updated_at" (notes (step Mount Sample.working initial_state))
  = true.
Proof.
  assert (H1 : error (server Sample.failing list_query) <> None)
    by (vm_compute; discriminate).
  assert (H2 : error (server Sample.working list_query) = None)
    by reflexivity.
  assert (H3 : descending_by "updated_at"
                 (rows_or_empty (data (server Sample.working list_query)))
               = true) by (vm_compute; reflexivity).
  destruct (load_degrades_to_empty_list Sample.failing Sample.editing)
    as (_ & _ & Ha & Hf & _).
  destruct (load_degrades_to_empty_list Sample.working initial_state)
    as (_ & _ & _ & _ & Hw).
  destruct (Hf H1) as [Hn _]. destruct (Hw H2) as [Hr Hd].
  split; [exact H1|]. split; [exact Hn|]. split; [exact Ha|].
  split; [exact H2|]. split; [exact H3|]. split; [exact Hr|].
  apply Hd. exact H3.
Defined.

Lemma client_requires_both_values_witness :
  Client.present Sample.configured "SUPABASE_URL" /\
  Client.present Sample.configured "REACT_APP_SUPABASE_ANON_KEY" /\
  Client.supabase Client.http_only Sample.configured
  = Client.Exported
      (Client.CreateClient (VStr "https://notes.example.org")
                           (VStr "public-anon-key")) /\
  Client.start Client.http_only Sample.configured = Some initial_state /\
  ~ (Client.present Sample.keyless "REACT_APP_SUPABASE_ANON_KEY" \/
     Client.present Sample.keyless "SUPABASE_ANON_KEY") /\
  (exists msg,
     Client.supabase Client.http_only Sample.keyless = Client.Thrown msg) /\
  Client.start Client.http_only Sample.keyless = None.
Proof.
  assert (H1 : Client.present Sample.configured "SUPABASE_URL").
  { eexists. split; [reflexivity|discriminate]. }
  assert (H2 : Client.present Sample.configured "REACT_APP_SUPABASE_ANON_KEY").
  { eexists. split; [reflexivity|discriminate]. }
  assert (H3 : ~ (Client.present Sample.keyless "REACT_APP_SUPABASE_ANON_KEY" \/
                  Client.present Sample.keyless "SUPABASE_ANON_KEY")).
  { intros [(s & Hs & Hne)|(s & Hs & _)]; vm_compute in Hs.
    - injection Hs as <-. by apply Hne.
    - discriminate Hs. }
  destruct (client_requires_both_values Client.http_only Sample.configured)
    as [_ Hok].
  destruct (client_requires_both_values Client.http_only Sample.keyless)
    as [Hbad _].
  destruct (Hok (conj (or_intror H1) (or_introl H2)))
    as (url & key & _ & _ & Hu & Hk & _ & _ & Hacc & _).
  assert (Eu : url = "https://notes.example.org").
  { destruct Hu as [Hu|Hu]; vm_compute in Hu; [discriminate Hu|].
    by injection Hu as <-. }
  assert (Ek : key = "public-anon-key").
  { destruct Hk as [Hk|Hk]; vm_compute in Hk; [|discriminate Hk].
    by injection Hk as <-. }
  subst url key. destruct (Hacc eq_refl) as [Hexp Hstart].
  destruct (Hbad (or_intror H3)) as [Hthrown Hnone].
  split; [exact H1|]. split; [exact H2|].
  split; [exact Hexp|]. split; [exact Hstart|].
  split; [exact H3|]. split; [by eexists|exact Hnone].
Defined.

(** Both values are given, the URL is a host name without a scheme: the
    constructor refuses it, no client is exported and the application does
    not start. *)
Lemma client_is_not_built_for_a_bare_host_name :
  (Client.present Demo.bare_host "REACT_APP_SUPABASE_URL" \/
   Client.present Demo.bare_host "SUPABASE_URL") /\
  (Client.present Demo.bare_host "REACT_APP_SUPABASE_ANON_KEY" \/
   Client.present Demo.bare_host "SUPABASE_ANON_KEY") /\
  Client.supabase Client.http_only Demo.bare_host
  = Client.Rejected "Invalid supabaseUrl: Must be a valid HTTP or HTTPS URL." /\
  ~ (exists c,
       Client.supabase Client.http_only Demo.bare_host = Client.Exported c) /\
  Client.start Client.http_only Demo.bare_host = None.
Proof.
  split; [right; eexists; split; [reflexivity|discriminate]|].
  split; [right; eexists; split; [reflexivity|discriminate]|].
  split; [vm_compute; reflexivity|].
  split; [|vm_compute; reflexivity].
  intros [c Hc]. vm_compute in Hc. discriminate Hc.
Qed.

(** ** Scenarios *)

(** An empty list, then one successful create: the list has one entry,
    its title is empty, and it is selected. *)
Example first_note_scenario :
  let st := steps [(Mount, Sample.fresh); (NewNote, Sample.fresh)]
                  initial_state in
  notes st = [Sample.created] /\
  field "title" Sample.created = VStr EmptyString /\
  selectedId st = field "id" Sample.created /\
  editingNote st = Some Sample.created.
Proof. repeat split. Qed.

(** Select the first note, type a title, select the second note without
    saving: the title of the first note in the list is what it was. *)
Example discarded_edit_scenario :
  let st := steps [(Select (VNum 1), Sample.working);
                   (Change TitleInput "Hello", Sample.working);
                   (Select (VNum 2), Sample.working)] Sample.idle in
  map (field "title") (notes st) = [VStr "Ideas"; VStr "Groceries"] /\
  editingNote st = Some Sample.noteB.
Proof. split; vm_compute; reflexivity. Qed.

(** A save on a buffer whose title is not a string throws after the saving
    flag was raised; the flag stays raised. *)
Example save_throws_on_null_title :
  let st := {| notes := []; selectedId := VNum 1;
               editingNote := Some (<["title" := VNull]> Sample.noteA);
               loading := false; saving := false |} in
  fst (dispatch Save Sample.working st) = Throw "TypeError" /\
  saving (step Save Sample.working st) = true /\
  trace Save Sample.working st = [ESetSaving true].
Proof. repeat split. Qed.

(** A note whose id is [0] can be selected but not deleted: the guard of
    [handleDelete] takes the id for an empty selection. *)
Example delete_ignores_id_zero :
  let zero := <["id" := VNum 0]> Sample.noteA in
  let st := step (Select (VNum 0)) Sample.working
                 {| notes := [zero]; selectedId := VNull;
                    editingNote := None; loading := false;
                    saving := false |} in
  editingNote st = Some zero /\
  step Delete Sample.working st = st /\
  trace Delete Sample.working st = [].
Proof. repeat split. Qed.

(** * Further properties of the code *)

(** ** The list items *)

Lemma first_line_split (s : string) :
  exists rest,
    s = first_line s +:+ rest /\
    contains_lf (first_line s) = false /\
    (rest = EmptyString \/
     exists c r, rest = String c r /\ is_lf c = true).
Proof.
  induction s as [|a s IH]; simpl.
  - exists EmptyString. repeat split. by left.
  - destruct (is_lf a) eqn:Ha.
    + exists (String a s). repeat split. right. by exists a, s.
    + destruct IH as (rest & E & Hn & Hr). exists rest.
      rewrite append_cons. simpl. rewrite Ha, Hn.
      repeat split; [congruence|done].
Qed.

Lemma slice_to_split (n : nat) (s : string) :
  exists rest,
    s = slice_to n s +:+ rest /\
    (String.length (slice_to n s) <= n)%nat /\
    (rest = EmptyString \/ String.length (slice_to n s) = n).
Proof.
  revert s. induction n as [|n IH]; intros s.
  - exists s. simpl. repeat split; [lia|by right].
  - destruct s as [|a s]; simpl.
    + exists EmptyString. repeat split; [lia|by left].
    + destruct (IH s) as (rest & E & Hl & Hr). exists rest.
      rewrite append_cons. repeat split; [congruence|lia|].
      destruct Hr as [Hr|Hr]; [by left|right; lia].
Qed.

Lemma slice_to_keeps_lf_free (n : nat) (s : string) :
  contains_lf s = false -> contains_lf (slice_to n s) = false.
Proof.
  revert s. induction n as [|n IH]; intros s; [done|].
  destruct s as [|a s]; simpl; [done|].
  intros H. apply orb_false_iff in H as [Ha Hs].
  rewrite Ha. simpl. by apply IH.
Qed.

Lemma slice_to_all (n : nat) (s : string) :
  (String.length s <= n)%nat -> slice_to n s = s.
Proof.
  revert s. induction n as [|n IH]; intros s.
  - destruct s; simpl; [done|lia].
  - destruct s as [|a s]; simpl; [done|]. intros H. f_equal. apply IH. lia.
Qed.

Lemma first_line_all (s : string) :
  contains_lf s = false -> first_line s = s.
Proof.
  induction s as [|a s IH]; simpl; [done|].
  intros H. apply orb_false_iff in H as [Ha Hs].
  rewrite Ha. f_equal. by apply IH.
Qed.

(** X1.  The preview of a note whose content is a non-empty string is a
    text, never the placeholder: a prefix of the content, of at most 33
    characters and without a line feed, which stops only at the end of the
    content, at the 33rd character or before a line feed.  A content of at
    most 33 characters without a line feed is shown whole. *)
Theorem preview_is_first_line_capped (a : ascii) (s' : string) :
  let s := String a s' in
  exists p rest,
    contentPreview (VStr s) = Ok (PreviewText p) /\
    s = p +:+ rest /\
    (String.length p <= 33)%nat /\
    contains_lf p = false /\
    (rest = EmptyString \/ String.length p = 33%nat \/
     exists c r, rest = String c r /\ is_lf c = true) /\
    ((String.length s <= 33)%nat -> contains_lf s = false -> p = s).
Proof.
  intros s.
  destruct (first_line_split s) as (rest1 & E1 & Hn1 & Hr1).
  destruct (slice_to_split 33 (first_line s)) as (rest2 & E2 & Hl2 & Hr2).
  exists (slice_to 33 (first_line s)), (rest2 +:+ rest1).
  split; [reflexivity|]. split.
  { rewrite <- append_assoc, <- E2. exact E1. }
  split; [exact Hl2|]. split; [by apply slice_to_keeps_lf_free|]. split.
  - destruct Hr2 as [->|Hr2]; [|by right; left].
    rewrite append_nil. destruct Hr1 as [->|Hr1]; [by left|by right; right].
  - intros Hlen Hlf. rewrite (first_line_all s Hlf). by apply slice_to_all.
Qed.

(** ** The selected item *)

Lemma selected_items_absent (sel : value) (l : list obj) :
  ~ In sel (map (field "id") l) ->
  List.filter item_selected (map (listItem sel) l) = [].
Proof.
  induction l as [|n l IH]; [done|]. simpl. intros H.
  unfold isSelected. destruct (strict_eq sel (field "id" n)) eqn:E.
  - apply strict_eq_true in E. destruct H. by left.
  - apply IH. intros Hin. apply H. by right.
Qed.

(** X2.  In a list with unique ids at most one item is drawn as selected:
    exactly one when a note has the selected id, none otherwise. *)
Theorem at_most_one_item_is_selected (st : State) :
  ids_unique (notes st) ->
  (In (selectedId st) (map (field "id") (notes st)) ->
   length (List.filter item_selected (listItems st)) = 1%nat) /\
  (~ In (selectedId st) (map (field "id") (notes st)) ->
   length (List.filter item_selected (listItems st)) = 0%nat).
Proof.
  unfold listItems, ids_unique. generalize (selectedId st) as sel.
  generalize (notes st) as l. clear st.
  intros l sel Hu. split.
  - induction l as [|n l IH]; [done|]. simpl. intros Hin.
    apply NoDup_cons in Hu as [Hn Hu]. rewrite list_elem_of_In in Hn.
    unfold isSelected at 1. destruct (strict_eq sel (field "id" n)) eqn:E.
    + apply strict_eq_true in E. subst sel. simpl.
      by rewrite selected_items_absent.
    + apply strict_eq_false in E. destruct Hin as [Hin|Hin]; [done|].
      by apply IH.
  - intros Hout. by rewrite selected_items_absent.
Qed.

(** ** Selecting *)

Lemma find_by_id_split (id : value) (l : list obj) :
  In id (map (field "id") l) ->
  exists before n after,
    l = before ++ n :: after /\ field "id" n = id /\
    ~ In id (map (field "id") before) /\
    find_by_id id l = Some n.
Proof.
  unfold find_by_id. induction l as [|m l IH]; [done|]. simpl. intros Hin.
  destruct (strict_eq (field "id" m) id) eqn:E.
  - apply strict_eq_true in E. exists [], m, l.
    repeat split; try done. intros [].
  - apply strict_eq_false in E. destruct Hin as [Hin|Hin]; [done|].
    destruct (IH Hin) as (before & n & after & -> & Hid & Hout & Hf).
    exists (m :: before), n, after. repeat split; try done.
    intros [H|H]; [done|by apply Hout].
Qed.

Lemma find_by_id_none (id : value) (l : list obj) :
  ~ In id (map (field "id") l) -> find_by_id id l = None.
Proof.
  unfold find_by_id. induction l as [|m l IH]; [done|]. simpl. intros H.
  destruct (strict_eq (field "id" m) id) eqn:E.
  - apply strict_eq_true in E. destruct H. by left.
  - apply IH. intros Hin. apply H. by right.
Qed.

(** X3.  Selecting an id sets the selection to it, sends nothing and keeps
    the list.  When notes have that id the buffer becomes the first of
    them, and the form shows its title and content if the id is truthy;
    when no note has it the buffer is emptied and the prompt is shown. *)
Theorem select_opens_the_first_match (id : value) (env : Env) (st : State) :
  let st' := step (Select id) env st in
  selectedId st' = id /\
  notes st' = notes st /\
  queries (trace (Select id) env st) = [] /\
  (In id (map (field "id") (notes st)) ->
   exists before n after,
     notes st = before ++ n :: after /\ field "id" n = id /\
     ~ In id (map (field "id") before) /\
     editingNote st' = Some n /\
     editorPane st'
     = if truthy id then Form (field "title" n) (field "content" n)
       else Prompt) /\
  (~ In id (map (field "id") (notes st)) ->
   editingNote st' = None /\ editorPane st' = Prompt).
Proof.
  intros st'. unfold st', step, trace. rewrite handleSelect_run. simpl.
  repeat split.
  - intros Hin.
    destruct (find_by_id_split id (notes st) Hin)
      as (before & n & after & Hl & Hid & Hout & Hf).
    exists before, n, after. unfold editorPane. simpl. rewrite Hf.
    by repeat split.
  - by apply find_by_id_none.
  - unfold editorPane. simpl. by rewrite find_by_id_none.
Qed.

(** ** What a handler can do *)

(** Every action but a save on a buffer without its texts returns. *)
Lemma dispatch_returns (a : action) (env : Env) (st : State) :
  (a = Save ->
   forall e, editingNote st = Some e ->
             exists t c, field "title" e = VStr t /\ field "content" e = VStr c) ->
  fst (dispatch a env st) = Ok tt.
Proof.
  intros Hsave. destruct a.
  - by rewrite loadNotes_run.
  - by rewrite handleSelect_run.
  - rewrite handleCreate_run. cbv zeta.
    destruct (error _); [done|]. by destruct (first_row _).
  - by rewrite handleChange_run.
  - destruct (editingNote st) as [e|] eqn:He.
    + destruct (Hsave eq_refl e eq_refl) as (t & c & Ht & Hc).
      rewrite (handleSave_run env st e t c He Ht Hc). cbv zeta.
      destruct (error _); [done|]. by destruct (first_row _).
    + by rewrite handleSave_no_buffer.
  - destruct (truthy (selectedId st)) eqn:Hsel.
    + rewrite handleDelete_run by done. cbv zeta. by destruct (error _).
    + by rewrite handleDelete_falsy.
Qed.

(** X4.  The only handler that throws is [handleSave], and it throws
    exactly when the buffer exists and its title or its content is not a
    string.  It has then set saving to true and nothing else: no request is
    sent, no alert is raised, and saving stays true. *)
Theorem only_save_throws (a : action) (env : Env) (st : State) :
  ((exists err, fst (dispatch a env st) = Throw err) <->
   a = Save /\
   exists e, editingNote st = Some e /\
             ~ (exists t c, field "title" e = VStr t /\
                            field "content" e = VStr c)) /\
  (forall err,
     fst (dispatch a env st) = Throw err ->
     err = "TypeError" /\
     trace a env st = [ESetSaving true] /\
     step a env st = with_saving true st).
Proof.
  assert (Hchar : forall err, fst (dispatch a env st) = Throw err ->
            a = Save /\
            exists e, editingNote st = Some e /\
              (forall t c, field "title" e = VStr t ->
                           field "content" e = VStr c -> False)).
  { intros err Hthrow.
    destruct a; try (rewrite dispatch_returns in Hthrow by done; done).
    split; [done|].
    destruct (editingNote st) as [e|] eqn:He.
    - exists e. split; [done|].
      destruct (buffer_texts e) as [(t & c & Ht & Hc)|Hbad]; [|done].
      rewrite dispatch_returns in Hthrow; [done|].
      intros _ e' He'. rewrite He in He'. injection He' as <-.
      by exists t, c.
    - rewrite dispatch_returns in Hthrow; [done|].
      intros _ e' He'. rewrite He in He'. discriminate He'. }
  split; [split|].
  - intros [err Hthrow]. destruct (Hchar err Hthrow) as (-> & e & He & Hbad).
    split; [done|]. exists e. split; [done|].
    intros (t & c & Ht & Hc). by apply (Hbad t c).
  - intros (-> & e & He & Hbad). exists "TypeError".
    rewrite (handleSave_type_error env st e He); [done|].
    intros t c Ht Hc. apply Hbad. by exists t, c.
  - intros err Hthrow. destruct (Hchar err Hthrow) as (-> & e & He & Hbad).
    unfold trace, step. revert Hthrow.
    rewrite (handleSave_type_error env st e He Hbad). simpl.
    by intros [= <-].
Qed.

(** Case analysis over the ways an action can run: rewrites
    [dispatch a env st] in the goal with its outcome, one goal per way. *)
Ltac run_cases a env st :=
  let err := fresh "err" in
  let Herr := fresh "Herr" in
  let row := fresh "row" in
  let Hrow := fresh "Hrow" in
  destruct a;
  [ rewrite loadNotes_run
  | rewrite handleSelect_run
  | rewrite handleCreate_run; cbv zeta;
    destruct (error (server env (create_query env))) as [err|] eqn:Herr;
    [|destruct (first_row (data (server env (create_query env))))
        as [row|] eqn:Hrow]
  | rewrite handleChange_run
  | let e := fresh "e" in
    let He := fresh "He" in
    destruct (editingNote st) as [e|] eqn:He;
    [ let t := fresh "t" in
      let c := fresh "c" in
      let Ht := fresh "Ht" in
      let Hc := fresh "Hc" in
      let Hbad := fresh "Hbad" in
      destruct (buffer_texts e) as [(t & c & Ht & Hc)|Hbad];
      [ rewrite (handleSave_run env st e t c He Ht Hc); cbv zeta;
        destruct (error (server env (save_query env e t c)))
          as [err|] eqn:Herr;
        [|destruct (first_row (data (server env (save_query env e t c))))
            as [row|] eqn:Hrow]
      | rewrite (handleSave_type_error env st e He Hbad) ]
    | rewrite (handleSave_no_buffer env st He) ]
  | let Hsel := fresh "Hsel" in
    destruct (truthy (selectedId st)) eqn:Hsel;
    [ rewrite (handleDelete_run env st Hsel); cbv zeta;
      destruct (error (server env (delete_query st))) as [err|] eqn:Herr
    | rewrite (handleDelete_falsy env st Hsel) ] ].

(** X5.  An action sends at most one request.  It raises an alert exactly
    when it is a write whose request is answered with an error, and the
    alert is the text of that write followed by the store's message; a
    failed load raises none. *)
Theorem one_request_and_alert_only_on_failed_write
    (a : action) (env : Env) (st : State) :
  (length (queries (trace a env st)) <= 1)%nat /\
  alerts (trace a env st)
  = match queries (trace a env st) with
    | [q] =>
        match error (server env q) with
        | Some err => if is_write a then [failure_text a +:+ err] else []
        | None => []
        end
    | _ => []
    end.
Proof.
  unfold trace. run_cases a env st; simpl; try (split; [lia|done]).
  all: repeat match goal with H : error _ = _ |- _ => rewrite H end.
  all: try (split; [lia|done]).
  - fold list_query. by destruct (error (server env list_query)).
Qed.

(** X6.  A create or a save whose request is answered without an error and
    without a row changes nothing and tells the user nothing: the log is
    saving set to true, the request, saving set to false, and the state is
    the former state with saving false. *)
Theorem write_without_row_is_silent
    (a : action) (env : Env) (st : State) (q : query) :
  a = NewNote \/ a = Save ->
  queries (trace a env st) = [q] ->
  error (server env q) = None ->
  first_row (data (server env q)) = None ->
  fst (dispatch a env st) = Ok tt /\
  trace a env st = [ESetSaving true; EQuery q; ESetSaving false] /\
  step a env st = with_saving false st.
Proof.
  intros Ha. unfold trace, step.
  run_cases a env st; simpl; try (by destruct Ha);
    intros [= <-] Hq1 Hq2; try congruence; done.
Qed.

(** X7.  The two flags.  Loading the list ends with loading false, whatever
    the store answers, and no other action changes loading.  A write that
    sent its request and returned leaves saving false, whether the request
    failed or not; any other action that returns leaves saving as it
    was. *)
Theorem flags_after_an_action (a : action) (env : Env) (st : State) :
  loading (step a env st)
  = match a with Mount => false | _ => loading st end /\
  (fst (dispatch a env st) = Ok tt ->
   saving (step a env st)
   = match queries (trace a env st) with
     | [] => saving st
     | _ :: _ => if is_write a then false else saving st
     end).
Proof.
  unfold trace, step. run_cases a env st; simpl; split; try done.
Qed.

(** X8.  Reloading apart, no action changes or removes a note that is
    neither selected nor in the edit buffer: a note of the list whose id is
    not the selection and not the id of the buffer is in the list
    afterwards. *)
Theorem other_notes_survive
    (a : action) (env : Env) (st : State) (n : obj) :
  a <> Mount ->
  In n (notes st) ->
  field "id" n <> selectedId st ->
  (forall e, editingNote st = Some e -> field "id" n <> field "id" e) ->
  In n (notes (step a env st)).
Proof.
  intros Ha Hin Hsel Hbuf. unfold step.
  run_cases a env st; simpl; try done; try (by right).
  - (* a save that replaced the entries with the id of the buffer *)
    apply in_map_iff. exists n. split; [|done].
    rewrite trimmed_buffer_id.
    destruct (strict_eq (field "id" n) (field "id" e)) eqn:E; [|done].
    apply strict_eq_true in E. by destruct (Hbuf e).
  - (* a delete that removed the entries with the selected id *)
    apply filter_In. split; [done|].
    destruct (strict_eq (field "id" n) (selectedId st)) eqn:E; [|done].
    apply strict_eq_true in E. done.
Qed.

(** ** Typing and saving *)

(** X9.  Typing into a field of an open buffer changes that property and
    [updated_at] of the buffer and no other property; the list, the
    selection and the flags stay, and nothing is sent. *)
Theorem change_touches_one_field_and_the_stamp
    (i : input) (text : string) (env : Env) (st : State) (e : obj) :
  editingNote st = Some e ->
  exists b : obj,
    step (Change i text) env st = with_editingNote (Some b) st /\
    trace (Change i text) env st = [ESetEditingNote (Some b)] /\
    b !! input_name i = Some (VStr text) /\
    b !! "updated_at" = Some (VStr (clock env 0)) /\
    forall k, k <> input_name i -> k <> "updated_at" -> b !! k = e !! k.
Proof.
  intros He. unfold step, trace. rewrite handleChange_run. cbv zeta.
  rewrite He. simpl. eexists. split; [reflexivity|]. split; [reflexivity|].
  split; [|split].
  - rewrite lookup_insert_ne by (destruct i; discriminate).
    by rewrite lookup_insert_eq.
  - by rewrite lookup_insert_eq.
  - intros k Hk Hu. by rewrite !lookup_insert_ne.
Qed.

(** X10.  What is typed is what is saved.  After typing [text] into a field
    of a buffer whose title and content were [t] and [c], a save sends the
    trimmed text for that field and the trimmed former text for the other,
    for the id of the buffer; the [updated_at] it sends is the reading of
    the clock at the save, not the stamp of the typing. *)
Theorem typed_text_is_what_save_sends
    (i : input) (text : string) (envC envS : Env) (st : State)
    (e : obj) (t c : string) :
  editingNote st = Some e ->
  field "title" e = VStr t ->
  field "content" e = VStr c ->
  queries (trace Save envS (step (Change i text) envC st))
  = [QUpdate "notes"
       (<["updated_at" := VStr (clock envS 0)]>
          (<["content" := VStr (trim (content_after i text c))]>
             (<["title" := VStr (trim (title_after i text t))]> ∅)))
       "id" (field "id" e)].
Proof.
  intros He Ht Hc.
  set (b := <["updated_at" := VStr (clock envC 0)]>
              (<[input_name i := VStr text]> e)).
  assert (Hst : editingNote (step (Change i text) envC st) = Some b).
  { unfold step. rewrite handleChange_run. cbv zeta. by rewrite He. }
  assert (Hid : field "id" b = field "id" e).
  { unfold b. rewrite !field_insert_ne by (destruct i; discriminate). done. }
  assert (Hbt : field "title" b = VStr (title_after i text t)).
  { unfold b. rewrite field_insert_ne by done.
    destruct i; simpl; [by rewrite field_insert|].
    by rewrite field_insert_ne. }
  assert (Hbc : field "content" b = VStr (content_after i text c)).
  { unfold b. rewrite field_insert_ne by done.
    destruct i; simpl; [by rewrite field_insert_ne|].
    by rewrite field_insert. }
  rewrite (trace_save_queries envS _ b _ _ Hst Hbt Hbc).
  unfold save_query. by rewrite trimmed_buffer_id, trimmed_buffer_patch, Hid.
Qed.

(** ** Creating and deleting *)

(** X11.  Deleting a note right after creating it gives the list back.
    When the created row has a truthy id that no note of the list has, the
    delete button is offered after the create, and a successful delete
    leaves the list of before the create, with nothing selected and no
    buffer. *)
Theorem create_then_delete_restores_the_list
    (env1 env2 : Env) (st : State) (n : obj) :
  error (server env1 (create_query env1)) = None ->
  first_row (data (server env1 (create_query env1))) = Some n ->
  truthy (field "id" n) = true ->
  ~ In (field "id" n) (map (field "id") (notes st)) ->
  error (server env2 (QDelete "notes" "id" (field "id" n))) = None ->
  enabled Delete (step NewNote env1 st) = true /\
  queries (trace Delete env2 (step NewNote env1 st))
  = [QDelete "notes" "id" (field "id" n)] /\
  steps [(NewNote, env1); (Delete, env2)] st
  = {| notes := notes st; selectedId := VNull; editingNote := None;
       loading := loading st; saving := false |}.
Proof.
  intros Herr Hrow Hid Hfresh Herr2.
  assert (Hst : step NewNote env1 st
                = {| notes := n :: notes st; selectedId := field "id" n;
                     editingNote := Some n; loading := loading st;
                     saving := false |}).
  { unfold step. rewrite handleCreate_run. cbv zeta. by rewrite Herr, Hrow. }
  simpl. rewrite Hst. split; [|split].
  - unfold enabled, editorPane. simpl. by rewrite Hid.
  - rewrite trace_delete_queries. simpl. by rewrite Hid.
  - unfold step. rewrite handleDelete_run by done. cbv zeta.
    unfold delete_query. simpl. rewrite Herr2. simpl.
    rewrite strict_eq_refl. simpl. by rewrite filter_out_absent.
Qed.

(** ** The client's configuration *)

Lemma or_else_getenv (penv : gmap string string) (k1 k2 : string) :
  or_else (Client.getenv penv k1) (Client.getenv penv k2)
  = match penv !! k1 with
    | Some (String a s) => VStr (String a s)
    | _ => Client.getenv penv k2
    end.
Proof.
  unfold or_else, Client.getenv. by destruct (penv !! k1) as [[|a s]|].
Qed.

(** X12.  When the client is created, each of its two values is the
    variable with the [REACT_APP_] prefix if that one is set and not empty,
    and the variable without the prefix otherwise: the prefixed name takes
    precedence, and an empty prefixed value falls back to the plain one. *)
Theorem prefixed_variable_takes_precedence
    (check : value -> value -> option string)
    (penv : gmap string string) (c : Client.client) :
  Client.supabase check penv = Client.Exported c ->
  Client.client_url c
  = match penv !! "REACT_APP_SUPABASE_URL" with
    | Some (String a s) => VStr (String a s)
    | _ => Client.getenv penv "SUPABASE_URL"
    end /\
  Client.client_key c
  = match penv !! "REACT_APP_SUPABASE_ANON_KEY" with
    | Some (String a s) => VStr (String a s)
    | _ => Client.getenv penv "SUPABASE_ANON_KEY"
    end /\
  truthy (Client.client_url c) = true /\
  truthy (Client.client_key c) = true.
Proof.
  unfold Client.supabase, Client.createClient.
  destruct (truthy (Client.supabaseUrl penv)) eqn:Eu; simpl; [|done].
  destruct (truthy (Client.supabaseAnonKey penv)) eqn:Ek; simpl; [|done].
  destruct (check _ _); [done|].
  intros [= <-]. simpl. rewrite Eu, Ek.
  unfold Client.supabaseUrl, Client.supabaseAnonKey.
  by rewrite !or_else_getenv.
Qed.

(** ** Handlers and answers in any order *)

(** The two halves of a handler, run one after the other with the answer
    of the store in between, are the handler. *)
Lemma handler_is_begin_answered_at_once
    (a : action) (snap : State) (env : Env) (w : World) :
  handler a snap env w = answered_at_once (begin a snap) env w.
Proof.
  destruct w as [st n l], snap as [ns sel ed ld sv].
  destruct a; exec_async; repeat first [reflexivity | case_match].
Qed.

Lemma nth_error_last {A : Type} (l : list A) (x : A) :
  nth_error (l ++ [x]) (length l) = Some x.
Proof. induction l as [|y l IH]; [done|]. exact IH. Qed.

Lemma remove_last {A : Type} (l : list A) (x : A) :
  firstn (length l) (l ++ [x]) ++ skipn (S (length l)) (l ++ [x]) = l.
Proof.
  induction l as [|y l IH]; [done|]. simpl. f_equal. exact IH.
Qed.

(** X13.  The buffer can leave the selection behind.  When a save is sent,
    another id is selected before the store answers, and the answer then
    comes without an error and with a row: the entries of the list with
    the id of the saved buffer become that row, the row becomes the edit
    buffer, and the selection stays on the id selected in between.  So when
    the row has another id than the selection, the buffer shown is not a
    version of the selected note. *)
Theorem late_save_answer_overwrites_the_buffer
    (p : Page) (e : obj) (t c : string) (id : value) (u : obj)
    (envS envB envA : Env) :
  editingNote (view p) = Some e ->
  field "title" e = VStr t ->
  field "content" e = VStr c ->
  let q := save_query envS e t c in
  error (server envA q) = None ->
  first_row (data (server envA q)) = Some u ->
  let p' := occurs [Click Save envS; Click (Select id) envB;
                    Answer (length (waiting p)) envA] p in
  view p'
  = {| notes := map (fun n => if strict_eq (field "id" n) (field "id" e)
                              then u else n) (notes (view p));
       selectedId := id;
       editingNote := Some u;
       loading := loading (view p);
       saving := false |} /\
  waiting p' = waiting p /\
  (field "id" u <> id ->
   forall b, editingNote (view p') = Some b ->
             field "id" b <> selectedId (view p')).
Proof.
  intros He Ht Hc q Herr Hrow p'.
  destruct p as [[ns sel ed ld sv] ws]. simpl in He. subst ed.
  assert (Hp : view p'
               = {| notes := map (fun n => if strict_eq (field "id" n)
                                                        (field "id" e)
                                           then u else n) ns;
                    selectedId := id; editingNote := Some u;
                    loading := ld; saving := false |} /\
               waiting p' = ws).
  { unfold q, save_query, trimmed_buffer in Herr, Hrow.
    unfold p', occurs, occur. exec_async. rewrite Ht, Hc. exec_async.
    rewrite nth_error_last, remove_last. exec_async.
    rewrite Herr. exec_async. rewrite Hrow. exec_async.
    rewrite !field_insert_ne by done. by split. }
  destruct Hp as [Hv Hw]. split; [exact Hv|]. split; [exact Hw|].
  intros Hne b. rewrite Hv. simpl. by intros [= <-].
Qed.

Lemma enabled_form (st : State) :
  match editorPane st with Form _ _ => true | Prompt => false end = true ->
  exists e, editingNote st = Some e /\ truthy (selectedId st) = true.
Proof.
  unfold editorPane. destruct (editingNote st) as [e|]; [|done].
  destruct (truthy (selectedId st)); [|done]. intros _. by exists e.
Qed.

Lemma has_texts_after_change
    (i : input) (text now : string) (e : obj) :
  has_texts e ->
  has_texts (<["updated_at" := VStr now]> (<[input_name i := VStr text]> e)).
Proof.
  intros [[t Ht] [c Hc]]. unfold has_texts.
  rewrite !(field_insert_ne "updated_at") by done.
  destruct i; simpl.
  - rewrite field_insert, field_insert_ne by done. eauto.
  - rewrite field_insert, field_insert_ne by done. eauto.
Qed.

Lemma texts_in_first_row (r : response) (n : obj) :
  texts_in r -> first_row (data r) = Some n -> has_texts n.
Proof. intros Hr Hn. apply Hr. by apply first_row_in. Qed.

Lemma texts_of_store (env : Env) (q : query) :
  text_columns env -> texts_in (server env q).
Proof. intros H row. apply H. Qed.

Lemma has_texts_replaced (v : value) (u : obj) (l : list obj) :
  has_texts u -> Forall has_texts l ->
  Forall has_texts
    (map (fun n => if strict_eq (field "id" n) v then u else n) l).
Proof.
  intros Hu Hl. apply Forall_map. eapply Forall_impl; [exact Hl|].
  intros n Hn. simpl. by destruct (strict_eq _ _).
Qed.

Lemma has_texts_filtered (f : obj -> bool) (l : list obj) :
  Forall has_texts l -> Forall has_texts (List.filter f l).
Proof.
  intros Hl. apply Forall_forall. intros n Hin.
  apply list_elem_of_In, filter_In in Hin as [Hin _].
  rewrite Forall_forall in Hl. apply Hl. by apply list_elem_of_In.
Qed.

(** The first half of a handler keeps the texts, does not throw when the
    buffer has its texts, and leaves a second half that keeps them. *)
Lemma begin_keeps_texts (a : action) (env : Env) (st : State) :
  texts_everywhere st ->
  (forall i text, a = Change i text -> editingNote st <> None) ->
  match run (begin a st) env st with
  | (Ok Finished, w) => texts_everywhere (ui w)
  | (Ok (Awaiting q k), w) => texts_everywhere (ui w) /\ keeps_texts k
  | (Throw _, _) => False
  end.
Proof.
  intros [Hn Hb] Hform. destruct st as [ns sel ed ld sv]. simpl in *.
  destruct a.
  - (* Mount *)
    exec_async. split; [by split|].
    intros r env' [ns' sel' ed' ld' sv'] Hr [Hn' Hb']. exec_async.
    destruct (error r); split; simpl; try done. apply Forall_forall.
    intros row Hrow. apply Hr. by apply list_elem_of_In.
  - (* Select *)
    exec_async. split; [done|]. simpl. intros e He.
    destruct (find _ ns) as [n|] eqn:Hf; [|done]. injection He as <-.
    apply find_some in Hf as [Hin _].
    rewrite Forall_forall in Hn. apply Hn. by apply list_elem_of_In.
  - (* Create *)
    exec_async. split; [by split|].
    intros r env' [ns' sel' ed' ld' sv'] Hr [Hn' Hb']. exec_async.
    destruct (error r); [by split|].
    destruct (first_row (data r)) as [n|] eqn:Hrow; [|by split].
    pose proof (texts_in_first_row r n Hr Hrow). split; simpl.
    + by constructor.
    + by intros e [= <-].
  - (* Change *)
    destruct ed as [e|]; [|by destruct (Hform i text eq_refl)].
    exec_async. split; [done|]. simpl. intros b [= <-].
    apply has_texts_after_change. by apply Hb.
  - (* Save *)
    destruct ed as [e|]; [|exec_async; by split].
    destruct (Hb e eq_refl) as [[t Ht] [c Hc]].
    exec_async. rewrite Ht, Hc. exec_async. split; [by split|].
    intros r env' [ns' sel' ed' ld' sv'] Hr [Hn' Hb']. exec_async.
    destruct (error r); [by split|].
    destruct (first_row (data r)) as [u|] eqn:Hrow; [|by split].
    pose proof (texts_in_first_row r u Hr Hrow). split; simpl.
    + by apply has_texts_replaced.
    + by intros e' [= <-].
  - (* Delete *)
    exec_async. destruct (truthy sel); [|by split].
    exec_async. split; [by split|].
    intros r env' [ns' sel' ed' ld' sv'] Hr [Hn' Hb']. exec_async.
    destruct (error r); split; simpl; try done.
    by apply has_texts_filtered.
Qed.

Lemma click_keeps_texts (a : action) (env : Env) (p : Page) :
  texts_everywhere (view p) ->
  Forall (fun qk : query * (response -> M unit) => keeps_texts qk.2)
         (waiting p) ->
  (forall i text, a = Change i text -> editingNote (view p) <> None) ->
  fst (click a env p) = Ok tt /\
  texts_everywhere (view (snd (click a env p))) /\
  Forall (fun qk : query * (response -> M unit) => keeps_texts qk.2)
         (waiting (snd (click a env p))).
Proof.
  intros Hv Hw Hform.
  pose proof (begin_keeps_texts a env (view p) Hv Hform) as H.
  unfold click. destruct (run (begin a (view p)) env (view p)) as [[[|q k]|] w].
  - simpl. split; [done|]. by split.
  - destruct H as [H Hk]. simpl. split; [done|]. split; [done|].
    apply Forall_app. split; [done|]. by constructor.
  - destruct H.
Qed.

Lemma answer_keeps_texts (k : nat) (env : Env) (p : Page) :
  text_columns env ->
  texts_everywhere (view p) ->
  Forall (fun qk : query * (response -> M unit) => keeps_texts qk.2)
         (waiting p) ->
  texts_everywhere (view (answer_to k env p)) /\
  Forall (fun qk : query * (response -> M unit) => keeps_texts qk.2)
         (waiting (answer_to k env p)).
Proof.
  intros Henv Hv Hw. unfold answer_to.
  destruct (nth_error (waiting p) k) as [[q rest]|] eqn:Hk; [|done].
  simpl. split.
  - assert (Hrest : keeps_texts rest).
    { rewrite Forall_forall in Hw.
      apply (Hw (q, rest)), list_elem_of_In. eapply nth_error_In, Hk. }
    apply Hrest; [by apply texts_of_store|done].
  - apply Forall_app. split.
    + apply Forall_forall. intros x Hx. rewrite Forall_forall in Hw.
      apply Hw. apply list_elem_of_In. apply list_elem_of_In in Hx.
      rewrite <- (firstn_skipn k (waiting p)). apply in_or_app. by left.
    + apply Forall_forall. intros x Hx. rewrite Forall_forall in Hw.
      apply Hw. apply list_elem_of_In. apply list_elem_of_In in Hx.
      rewrite <- (firstn_skipn (S k) (waiting p)). apply in_or_app.
      by right.
Qed.

(** X14.  Whatever the order of clicks and answers: from the first render,
    through any run in which every click is on something the page shows
    and every answer comes from a store whose rows have a text in [title]
    and in [content], every note of the list and the buffer keep their
    texts, and no click makes a handler throw. *)
Theorem no_click_throws_when_rows_have_texts
    (env0 : Env) (os : list occurrence) :
  Forall (fun o => text_columns (env_of o)) os ->
  offered os (opened env0) ->
  let p := occurs os (opened env0) in
  Forall has_texts (notes (view p)) /\
  (forall e, editingNote (view p) = Some e -> has_texts e) /\
  forall a env, fst (click a env p) = Ok tt.
Proof.
  intros Hstores Hoffered.
  assert (Hstart : texts_everywhere (view (opened env0)) /\
            Forall (fun qk : query * (response -> M unit) => keeps_texts qk.2)
                   (waiting (opened env0))).
  { unfold opened.
    assert (H0 : texts_everywhere initial_state).
    { split; [constructor|]. intros e He. discriminate He. }
    destruct (click_keeps_texts Mount env0
                {| view := initial_state; waiting := [] |} H0)
      as (_ & Hv & Hw); [constructor|discriminate|by split]. }
  revert Hstart Hoffered. generalize (opened env0) as p0.
  induction os as [|o os IH]; intros p0 [Hv Hw] Hoffered.
  - simpl. destruct Hv as [Hn Hb]. split; [done|]. split; [done|].
    intros a env.
    destruct a; try (by apply click_keeps_texts).
    (* a field change, which the page may not offer here *)
    unfold click. exec_async. reflexivity.
  - apply Forall_cons in Hstores as [Hstore Hstores].
    destruct Hoffered as [Ho Hoffered]. simpl. apply IH; [done| |done].
    destruct o as [a env|k env]; simpl.
    + destruct (click_keeps_texts a env p0 Hv Hw) as (_ & Hv' & Hw');
        [|done].
      intros i text ->. apply enabled_form in Ho as (e & He & _).
      by rewrite He.
    + by apply answer_keeps_texts.
Qed.

(** ** Saving and the order of the list *)

Lemma replace_absent (v : value) (u : obj) (l : list obj) :
  ~ In v (map (field "id") l) ->
  map (fun n => if strict_eq (field "id" n) v then u else n) l = l.
Proof.
  induction l as [|m l IH]; [done|]. simpl. intros H.
  destruct (strict_eq (field "id" m) v) eqn:E.
  - apply strict_eq_true in E. destruct H. by left.
  - f_equal. apply IH. intros Hin. apply H. by right.
Qed.

(** In a list with unique ids, replacing by id changes the one entry that
    has the id and keeps its place. *)
Lemma replace_unique (before after : list obj) (n u : obj) :
  ids_unique (before ++ n :: after) ->
  map (fun m => if strict_eq (field "id" m) (field "id" n) then u else m)
      (before ++ n :: after)
  = before ++ u :: after.
Proof.
  unfold ids_unique. rewrite map_app. simpl. intros Hu.
  apply NoDup_app in Hu as (_ & Hdisj & Hu).
  apply NoDup_cons in Hu as [Hn _].
  rewrite map_app. simpl. rewrite strict_eq_refl.
  rewrite !replace_absent; [done| |].
  - intros Hin. apply Hn. by apply list_elem_of_In.
  - intros Hin. apply (Hdisj (field "id" n)).
    + by apply list_elem_of_In.
    + by left.
Qed.

Lemma not_descending_after (col : string) (b u : obj) (before after : list obj) :
  In b before ->
  ts_geb (field col b) (field col u) = false ->
  descending_by col (before ++ u :: after) = false.
Proof.
  induction before as [|m before IH]; [done|]. simpl.
  intros [->|Hin] Hlt.
  - apply andb_false_iff. left. rewrite forallb_app. simpl. rewrite Hlt.
    simpl. apply andb_false_r.
  - apply andb_false_iff. right. by apply IH.
Qed.

(** X15.  A successful save keeps the saved note at its place: in a list
    with unique ids the notes before and after the entry of the buffer stay
    where they are and the entry becomes the row of the store.  The list is
    not sorted again: when a note above the entry has an [updated_at] that
    is not at or after that of the new row, the list is no longer in
    descending order of [updated_at]. *)
Theorem save_keeps_the_place_of_the_note
    (env : Env) (st : State) (e : obj) (t c : string) (u : obj)
    (before after : list obj) (n : obj) :
  editingNote st = Some e ->
  field "title" e = VStr t ->
  field "content" e = VStr c ->
  error (server env (save_query env e t c)) = None ->
  first_row (data (server env (save_query env e t c))) = Some u ->
  ids_unique (notes st) ->
  notes st = before ++ n :: after ->
  field "id" n = field "id" e ->
  notes (step Save env st) = before ++ u :: after /\
  forall b, In b before ->
            ts_geb (field "updated_at" b) (field "updated_at" u) = false ->
            descending_by "updated_at" (notes (step Save env st)) = false.
Proof.
  intros He Ht Hc Herr Hrow Hu Hl Hid.
  assert (Hn : notes (step Save env st) = before ++ u :: after).
  { unfold step. rewrite (handleSave_run env st e t c He Ht Hc). cbv zeta.
    rewrite Herr, Hrow. simpl. rewrite trimmed_buffer_id, <- Hid.
    rewrite Hl in Hu |- *. by apply replace_unique. }
  split; [exact Hn|]. intros b Hb Hlt. rewrite Hn.
  by apply (not_descending_after "updated_at" b).
Qed.

(** ** The further properties at work on sample data *)

Lemma at_most_one_item_is_selected_witness :
  ids_unique (notes Sample.editing) /\
  In (selectedId Sample.editing) (map (field "id") (notes Sample.editing)) /\
  map item_selected (listItems Sample.editing) = [false; true] /\
  length (List.filter item_selected (listItems Sample.editing)) = 1%nat.
Proof.
  assert (H1 : ids_unique (notes Sample.editing)) by apply sample_ids_unique.
  assert (H2 : In (selectedId Sample.editing)
                  (map (field "id") (notes Sample.editing)))
    by (vm_compute; right; left; reflexivity).
  destruct (at_most_one_item_is_selected Sample.editing H1) as [Hone _].
  split; [exact H1|]. split; [exact H2|]. split; [reflexivity|].
  exact (Hone H2).
Defined.

Lemma write_without_row_is_silent_witness :
  let q := create_query Demo.rowless in
  queries (trace NewNote Demo.rowless Sample.idle) = [q] /\
  error (server Demo.rowless q) = None /\
  first_row (data (server Demo.rowless q)) = None /\
  trace NewNote Demo.rowless Sample.idle
  = [ESetSaving true; EQuery q; ESetSaving false] /\
  step NewNote Demo.rowless Sample.idle = Sample.idle.
Proof.
  intros q.
  assert (H1 : queries (trace NewNote Demo.rowless Sample.idle) = [q])
    by reflexivity.
  assert (H2 : error (server Demo.rowless q) = None) by reflexivity.
  assert (H3 : first_row (data (server Demo.rowless q)) = None)
    by reflexivity.
  destruct (write_without_row_is_silent
              NewNote Demo.rowless Sample.idle q (or_introl eq_refl) H1 H2 H3)
    as (_ & Ht & Hs).
  split; [exact H1|]. split; [exact H2|]. split; [exact H3|].
  split; [exact Ht|]. rewrite Hs. reflexivity.
Defined.

Lemma other_notes_survive_witness :
  Save <> Mount /\
  In Sample.noteB (notes Sample.editing) /\
  field "id" Sample.noteB <> selectedId Sample.editing /\
  In Sample.noteB (notes (step Save Sample.working Sample.editing)) /\
  In Sample.noteB (notes (step Delete Sample.working Sample.editing)).
Proof.
  assert (H1 : Save <> Mount) by discriminate.
  assert (H1' : Delete <> Mount) by discriminate.
  assert (H2 : In Sample.noteB (notes Sample.editing))
    by (left; reflexivity).
  assert (H3 : field "id" Sample.noteB <> selectedId Sample.editing)
    by (vm_compute; discriminate).
  assert (H4 : forall e, editingNote Sample.editing = Some e ->
                         field "id" Sample.noteB <> field "id" e).
  { intros e He. injection He as <-. vm_compute. discriminate. }
  split; [exact H1|]. split; [exact H2|]. split; [exact H3|]. split.
  - exact (other_notes_survive Save Sample.working Sample.editing
             Sample.noteB H1 H2 H3 H4).
  - exact (other_notes_survive Delete Sample.working Sample.editing
             Sample.noteB H1' H2 H3 H4).
Defined.

Lemma change_touches_one_field_and_the_stamp_witness :
  editingNote Sample.editing = Some Sample.buffer /\
  exists b : obj,
    editingNote (step (Change ContentInput "eggs") Sample.working
                      Sample.editing) = Some b /\
    b !! "content" = Some (VStr "eggs") /\
    b !! "title" = Sample.buffer !! "title" /\
    b !! "id" = Sample.buffer !! "id" /\
    b !! "created_at" = Sample.buffer !! "created_at".
Proof.
  assert (H : editingNote Sample.editing = Some Sample.buffer)
    by reflexivity.
  destruct (change_touches_one_field_and_the_stamp
              ContentInput "eggs" Sample.working Sample.editing
              Sample.buffer H)
    as (b & Hs & _ & Hc & _ & Hframe).
  split; [exact H|]. exists b. rewrite Hs.
  split; [reflexivity|]. split; [exact Hc|].
  split; [|split]; apply Hframe; discriminate.
Defined.

Lemma typed_text_is_what_save_sends_witness :
  editingNote Sample.editing = Some Sample.buffer /\
  field "title" Sample.buffer = VStr "  Hello " /\
  field "content" Sample.buffer = VStr "milk" /\
  queries (trace Save Sample.working
             (step (Change ContentInput " eggs ") Sample.failing
                   Sample.editing))
  = [QUpdate "notes"
       (<["updated_at" := VStr Sample.now]>
          (<["content" := VStr "eggs"]> (<["title" := VStr "Hello"]> ∅)))
       "id" (VNum 1)].
Proof.
  assert (H1 : editingNote Sample.editing = Some Sample.buffer)
    by reflexivity.
  assert (H2 : field "title" Sample.buffer = VStr "  Hello ")
    by (vm_compute; reflexivity).
  assert (H3 : field "content" Sample.buffer = VStr "milk")
    by (vm_compute; reflexivity).
  split; [exact H1|]. split; [exact H2|]. split; [exact H3|].
  rewrite (typed_text_is_what_save_sends
             ContentInput " eggs " Sample.failing Sample.working
             Sample.editing Sample.buffer "  Hello " "milk" H1 H2 H3).
  vm_compute. reflexivity.
Defined.

Lemma create_then_delete_restores_the_list_witness :
  let q := create_query Sample.working in
  error (server Sample.working q) = None /\
  first_row (data (server Sample.working q)) = Some Sample.created /\
  truthy (field "id" Sample.created) = true /\
  ~ In (field "id" Sample.created) (map (field "id") (notes Sample.idle)) /\
  steps [(NewNote, Sample.working); (Delete, Sample.working)] Sample.idle
  = Sample.idle.
Proof.
  intros q.
  assert (H1 : error (server Sample.working q) = None) by reflexivity.
  assert (H2 : first_row (data (server Sample.working q))
               = Some Sample.created) by reflexivity.
  assert (H3 : truthy (field "id" Sample.created) = true)
    by (vm_compute; reflexivity).
  assert (H4 : ~ In (field "id" Sample.created)
                    (map (field "id") (notes Sample.idle))).
  { vm_compute. intros [H|[H|[]]]; discriminate H. }
  assert (H5 : error (server Sample.working
                        (QDelete "notes" "id" (field "id" Sample.created)))
               = None) by reflexivity.
  destruct (create_then_delete_restores_the_list
              Sample.working Sample.working Sample.idle Sample.created
              H1 H2 H3 H4 H5) as (_ & _ & Hs).
  split; [exact H1|]. split; [exact H2|]. split; [exact H3|].
  split; [exact H4|]. rewrite Hs. reflexivity.
Defined.

Lemma prefixed_variable_takes_precedence_witness :
  let c := Client.CreateClient (VStr "https://app.example.org")
                               (VStr "plain-key") in
  Client.supabase Client.http_only Demo.both_names = Client.Exported c /\
  Client.client_url c = VStr "https://app.example.org" /\
  Client.client_key c = Client.getenv Demo.both_names "SUPABASE_ANON_KEY".
Proof.
  intros c.
  assert (H : Client.supabase Client.http_only Demo.both_names
              = Client.Exported c)
    by (vm_compute; reflexivity).
  destruct (prefixed_variable_takes_precedence
              Client.http_only Demo.both_names c H)
    as (Hu & Hk & _).
  split; [exact H|]. split; [reflexivity|]. rewrite Hk. reflexivity.
Defined.

Lemma echo_has_text_columns : text_columns Demo.echo.
Proof.
  intros q r. destruct q; simpl.
  - intros [<-|[<-|[]]]; split; eexists; vm_compute; reflexivity.
  - intros [<-|[]]. split; eexists; vm_compute; reflexivity.
  - intros [<-|[]]. unfold field.
    rewrite !lookup_insert_ne by done.
    split; eexists; vm_compute; reflexivity.
  - intros [].
Qed.

Lemma late_save_answer_overwrites_the_buffer_witness :
  let p := {| view := Sample.editing; waiting := [] |} in
  let q := save_query Sample.working Sample.buffer "  Hello " "milk" in
  let p' := occurs [Click Save Sample.working;
                    Click (Select (VNum 2)) Sample.working;
                    Answer 0 Sample.working] p in
  editingNote (view p) = Some Sample.buffer /\
  error (server Sample.working q) = None /\
  first_row (data (server Sample.working q)) = Some Sample.saved /\
  field "id" Sample.saved <> VNum 2 /\
  selectedId (view p') = VNum 2 /\
  editingNote (view p') = Some Sample.saved /\
  (forall b, editingNote (view p') = Some b ->
             field "id" b <> selectedId (view p')).
Proof.
  intros p q p'.
  assert (H1 : editingNote (view p) = Some Sample.buffer) by reflexivity.
  assert (H2 : field "title" Sample.buffer = VStr "  Hello ")
    by (vm_compute; reflexivity).
  assert (H3 : field "content" Sample.buffer = VStr "milk")
    by (vm_compute; reflexivity).
  assert (H4 : error (server Sample.working q) = None) by reflexivity.
  assert (H5 : first_row (data (server Sample.working q))
               = Some Sample.saved) by reflexivity.
  assert (H6 : field "id" Sample.saved <> VNum 2)
    by (vm_compute; discriminate).
  destruct (late_save_answer_overwrites_the_buffer
              p Sample.buffer "  Hello " "milk" (VNum 2) Sample.saved
              Sample.working Sample.working Sample.working
              H1 H2 H3 H4 H5) as (Hv & _ & Hstale).
  split; [exact H1|]. split; [exact H4|]. split; [exact H5|].
  split; [exact H6|].
  split; [exact (f_equal selectedId Hv)|].
  split; [exact (f_equal editingNote Hv)|].
  exact (Hstale H6).
Defined.

Lemma no_click_throws_when_rows_have_texts_witness :
  let os := [Click NewNote Demo.echo; Answer 0 Demo.echo;
             Answer 0 Demo.echo; Click (Change TitleInput "Soup") Demo.echo;
             Click Save Demo.echo; Click (Select (VNum 2)) Demo.echo;
             Answer 0 Demo.echo; Click Delete Demo.echo] in
  Forall (fun o => text_columns (env_of o)) os /\
  offered os (opened Demo.echo) /\
  length (waiting (occurs os (opened Demo.echo))) = 1%nat /\
  Forall has_texts (notes (view (occurs os (opened Demo.echo)))) /\
  fst (click Save Sample.failing (occurs os (opened Demo.echo))) = Ok tt.
Proof.
  intros os.
  assert (H1 : Forall (fun o => text_columns (env_of o)) os)
    by (repeat (apply List.Forall_cons; [apply echo_has_text_columns|]);
        apply List.Forall_nil).
  assert (H2 : offered os (opened Demo.echo))
    by (vm_compute; repeat split; repeat constructor).
  destruct (no_click_throws_when_rows_have_texts Demo.echo os H1 H2)
    as (Hn & _ & Hok).
  split; [exact H1|]. split; [exact H2|].
  split; [vm_compute; reflexivity|]. split; [exact Hn|apply Hok].
Defined.

Lemma save_keeps_the_place_of_the_note_witness :
  let q := save_query Sample.working Sample.buffer "  Hello " "milk" in
  error (server Sample.working q) = None /\
  first_row (data (server Sample.working q)) = Some Sample.saved /\
  descending_by "updated_at" (notes Sample.editing) = true /\
  notes (step Save Sample.working Sample.editing)
  = [Sample.noteB; Sample.saved] /\
  descending_by "updated_at" (notes (step Save Sample.working Sample.editing))
  = false.
Proof.
  intros q.
  assert (H1 : editingNote Sample.editing = Some Sample.buffer)
    by reflexivity.
  assert (H2 : field "title" Sample.buffer = VStr "  Hello ")
    by (vm_compute; reflexivity).
  assert (H3 : field "content" Sample.buffer = VStr "milk")
    by (vm_compute; reflexivity).
  assert (H4 : error (server Sample.working q) = None) by reflexivity.
  assert (H5 : first_row (data (server Sample.working q))
               = Some Sample.saved) by reflexivity.
  assert (H6 : ids_unique (notes Sample.editing))
    by apply sample_ids_unique.
  assert (H7 : notes Sample.editing = [Sample.noteB] ++ Sample.noteA :: [])
    by reflexivity.
  assert (H8 : field "id" Sample.noteA = field "id" Sample.buffer)
    by (vm_compute; reflexivity).
  destruct (save_keeps_the_place_of_the_note
              Sample.working Sample.editing Sample.buffer "  Hello " "milk"
              Sample.saved [Sample.noteB] [] Sample.noteA
              H1 H2 H3 H4 H5 H6 H7 H8) as [Hn Hd].
  split; [exact H4|]. split; [exact H5|].
  split; [vm_compute; reflexivity|]. split; [exact Hn|].
  apply (Hd Sample.noteB); [left; reflexivity|vm_compute; reflexivity].
Defined.

(** ** Rendering examples *)

(** A long first line is cut at 33 characters; the second line is not
    shown. *)
Example preview_of_long_content :
  contentPreview (VStr Demo.long_content)
  = Ok (PreviewText "Buy milk, eggs, bread and a very ").
Proof. reflexivity. Qed.

(** A content that starts with a line feed has an empty preview, not the
    placeholder. *)
Example preview_of_leading_line_feed :
  contentPreview (VStr (String (ascii_of_nat 10) "second line"))
  = Ok (PreviewText EmptyString).
Proof. reflexivity. Qed.

(** A note just created is listed as untitled and without content. *)
Example created_note_in_the_list :
  listItem (VNum 3) Sample.created
  = {| item_key := VNum 3; item_selected := true; item_title := Untitled;
       item_preview := Ok NoContent |}.
Proof. reflexivity. Qed.

(** A content that is a number cannot be rendered. *)
Example preview_of_a_number :
  contentPreview (VNum 5) = Throw "TypeError".
Proof. reflexivity. Qed.
